(** * A shallow embedding of the table endpoint of [app.py]

    The development follows the source top-down: the Python values the
    helpers manipulate (strings, [int()], dictionaries), the helpers
    themselves ([cast_limit], [build_filters], [parse_order],
    [payload_known_columns], [require_pk_params]), the database
    connection as explicit state, and finally [handler] together with
    the two Flask error handlers that turn exceptions into responses.

    Conventions.
    - A Python [str] is the [string] of its UTF-8 encoding, which is how
      a string literal of this file is read.  Keys and suffixes are
      compared byte by byte; [int()] works on the code points.
    - A Python [dict] (and werkzeug's [MultiDict], read through [get],
      [in] and [items()]) is an association list in insertion order in
      which the first binding of a key is the one that counts.
    - An exception is a value of [exn]; code that may raise returns a
      [result], and code that talks to the database lives in the monad
      [M], which threads the rows of the table and the list of
      statements sent to the engine.
    - The relational engine, the database driver and werkzeug's router
      are not part of the repository.  Their data-dependent decisions
      (does the engine run the statement or raise, does a comparison
      hold on a row, how does it sort, what does it store, are the
      values of a row ones that [jsonify] serialises, does a URL rule
      parse) are the fields of [Engine] and the argument [parses]; what
      a statement then does to the rows of the table is written out on
      lists. *)

From stdpp Require Import base option list strings gmap.
From Stdlib Require Import ZArith Ascii String Lia.

Local Open Scope Z_scope.

(** ** Python strings *)

Module Py.

Definition ord (a : ascii) : nat := nat_of_ascii a.

Definition lower_char (a : ascii) : ascii :=
  let n := ord a in
  if ((65 <=? n) && (n <=? 90))%nat then ascii_of_nat (n + 32) else a.

(** [s.lower()] on the letters A to Z; the other bytes are kept.  Of
    the characters outside ASCII only U+0130 and U+212A have a lower
    case with an ASCII letter in it ([i] and [k]), so the comparison of
    the result with ["desc"] is the one Python makes. *)
Fixpoint lower (s : string) : string :=
  match s with
  | EmptyString => EmptyString
  | String a s' => String (lower_char a) (lower s')
  end.

(** *** Code points *)

Definition byte (a : ascii) : Z := Z.of_nat (nat_of_ascii a).

(** The six payload bits of a continuation byte [10xxxxxx]. *)
Definition continuation (a : ascii) : option Z :=
  let b := byte a in
  if (128 <=? b) && (b <=? 191) then Some (b - 128) else None.

(** The code points of a [str], read from its UTF-8 encoding; [None] on
    bytes that encode no [str] (a stray or missing continuation byte, an
    overlong form, a surrogate, a value above U+10FFFF). *)
Fixpoint code_points (s : string) : option (list Z) :=
  match s with
  | EmptyString => Some []
  | String a s1 =>
      let b := byte a in
      if b <? 128 then cons b <$> code_points s1
      else if b <? 192 then None
      else if b <? 224 then
        match s1 with
        | String a1 s2 =>
            match continuation a1 with
            | Some c1 =>
                let cp := (b - 192) * 64 + c1 in
                if 128 <=? cp then cons cp <$> code_points s2 else None
            | None => None
            end
        | EmptyString => None
        end
      else if b <? 240 then
        match s1 with
        | String a1 (String a2 s3) =>
            match continuation a1, continuation a2 with
            | Some c1, Some c2 =>
                let cp := (b - 224) * 4096 + c1 * 64 + c2 in
                if (2048 <=? cp) && negb ((55296 <=? cp) && (cp <=? 57343))
                then cons cp <$> code_points s3 else None
            | _, _ => None
            end
        | _ => None
        end
      else if b <? 248 then
        match s1 with
        | String a1 (String a2 (String a3 s4)) =>
            match continuation a1, continuation a2, continuation a3 with
            | Some c1, Some c2, Some c3 =>
                let cp := (b - 240) * 262144 + c1 * 4096 + c2 * 64 + c3 in
                if (65536 <=? cp) && (cp <=? 1114111)
                then cons cp <$> code_points s4 else None
            | _, _, _ => None
            end
        | _ => None
        end
      else None
  end.

(** *** [int()]

    [int(s)] for a [str] goes through two functions of CPython:
    [_PyUnicode_TransformDecimalAndSpaceToASCII], which rewrites the
    white space and the decimal digits outside ASCII to a space and to
    the digits 0 to 9, and [PyLong_FromString] with base 10, which reads
    the result.  The tables are those of CPython 3.11 (Unicode 14.0). *)

(** [Py_ISSPACE]: TAB, LF, VT, FF, CR and SPACE.  The separators FS to
    US (28 to 31), white space for [str.isspace], are not. *)
Definition isspace (c : Z) : bool := (9 <=? c) && (c <=? 13) || (c =? 32).

(** [Py_UNICODE_ISSPACE] above 127. *)
Definition unicode_spaces : list Z :=
  [0x85; 0xa0; 0x1680; 0x2000; 0x2001; 0x2002; 0x2003; 0x2004; 0x2005; 0x2006;
   0x2007; 0x2008; 0x2009; 0x200a; 0x2028; 0x2029; 0x202f; 0x205f; 0x3000].

(** The decimal digits outside ASCII come in runs of ten, zero first;
    these are the zeros. *)
Definition decimal_zeros : list Z :=
  [0x660; 0x6f0; 0x7c0; 0x966; 0x9e6; 0xa66; 0xae6; 0xb66; 0xbe6; 0xc66;
   0xce6; 0xd66; 0xde6; 0xe50; 0xed0; 0xf20; 0x1040; 0x1090; 0x17e0;
   0x1810; 0x1946; 0x19d0; 0x1a80; 0x1a90; 0x1b50; 0x1bb0; 0x1c40; 0x1c50;
   0xa620; 0xa8d0; 0xa900; 0xa9d0; 0xa9f0; 0xaa50; 0xabf0; 0xff10; 0x104a0;
   0x10d30; 0x11066; 0x110f0; 0x11136; 0x111d0; 0x112f0; 0x11450; 0x114d0;
   0x11650; 0x116c0; 0x11730; 0x118e0; 0x11950; 0x11c50; 0x11d50; 0x11da0;
   0x16a60; 0x16ac0; 0x16b50; 0x1d7ce; 0x1d7d8; 0x1d7e2; 0x1d7ec; 0x1d7f6;
   0x1e140; 0x1e2f0; 0x1e950; 0x1fbf0].

(** [Py_UNICODE_TODECIMAL] above 127. *)
Definition to_decimal (c : Z) : option Z :=
  (λ zero, c - zero) <$> List.find (λ zero, (zero <=? c) && (c <? zero + 10)) decimal_zeros.

(** The loop of the transformation: a character below 127 is kept, a
    space becomes [' '], a digit its ASCII digit, and anything else
    ['?'], which ends the output. *)
Fixpoint to_ascii (cps : list Z) : list Z :=
  match cps with
  | [] => []
  | c :: cps' =>
      if c <? 127 then c :: to_ascii cps'
      else if bool_decide (c ∈ unicode_spaces) then 32 :: to_ascii cps'
      else
        match to_decimal c with
        | Some d => (48 + d) :: to_ascii cps'
        | None => [63]
        end
  end.

(** An ASCII string is returned as it is. *)
Definition transform (cps : list Z) : list Z :=
  if forallb (λ c, c <? 128) cps then cps else to_ascii cps.

Fixpoint skip_spaces (l : list Z) : list Z :=
  match l with
  | c :: l' => if isspace c then skip_spaces l' else l
  | [] => []
  end.

(** The scan of the digits: the value read so far, the number of
    digits, whether the previous character was an underscore.  Two
    underscores in a row and an underscore at the end are refused; the
    scan stops at the first character that is neither. *)
Fixpoint scan (acc : Z) (digits : nat) (underscore : bool) (l : list Z)
    : option (Z * nat * list Z) :=
  match l with
  | c :: l' =>
      if (48 <=? c) && (c <=? 57) then scan (10 * acc + (c - 48)) (S digits) false l'
      else if c =? 95 then
        if underscore then None else scan acc digits true l'
      else if underscore then None else Some (acc, digits, l)
  | [] => if underscore then None else Some (acc, digits, [])
  end.

(** [sys.int_info.default_max_str_digits]: a literal with more digits
    is refused. *)
Definition int_max_str_digits : nat := 4300.

(** [PyLong_FromString(s, &end, 10)] followed by the test that [end] is
    the end of the string: white space, one optional sign, digits that
    do not start with an underscore, white space. *)
Definition long_from_string (l : list Z) : option Z :=
  let l1 := skip_spaces l in
  let '(negative, l2) :=
    match l1 with
    | 43 :: r => (false, r)
    | 45 :: r => (true, r)
    | _ => (false, l1)
    end in
  match l2 with
  | 95 :: _ => None
  | _ =>
      match scan 0 0 false l2 with
      | Some (v, digits, rest) =>
          if (digits =? 0)%nat then None
          else if (int_max_str_digits <? digits)%nat then None
          else
            match skip_spaces rest with
            | [] => Some (if negative then - v else v)
            | _ => None
            end
      | None => None
      end
  end.

(** [int(s)] for a [str] argument: [Some v] when it returns [v], [None]
    when it raises [ValueError]. *)
Definition int (s : string) : option Z :=
  match code_points s with
  | Some cps => long_from_string (transform cps)
  | None => None
  end.

(** [s.endswith(suffix)] *)
Definition endswith (s suffix : string) : bool :=
  let n := String.length s in
  let m := String.length suffix in
  (m <=? n)%nat && String.eqb (substring (n - m) m s) suffix.

(** [s[:-k]] for [k > 0] *)
Definition drop_last (k : nat) (s : string) : string :=
  substring 0 (String.length s - k) s.

(** ** Python dictionaries *)

Definition dict (V : Type) : Type := list (string * V).

(** [k in d] *)
Definition contains {V} (d : dict V) (k : string) : bool :=
  bool_decide (k ∈ d.*1).

(** [d.get(k)] *)
Fixpoint get {V} (d : dict V) (k : string) : option V :=
  match d with
  | [] => None
  | (k', v) :: d' => if decide (k = k') then Some v else get d' k
  end.

Fixpoint items_from {V} (seen : list string) (d : dict V) : list (string * V) :=
  match d with
  | [] => []
  | (k, v) :: d' =>
      if decide (k ∈ seen) then items_from seen d'
      else (k, v) :: items_from (k :: seen) d'
  end.

(** [d.items()]: every key once, with the value [get] returns. *)
Definition items {V} (d : dict V) : list (string * V) := items_from [] d.

(** [d[k] = v] *)
Fixpoint set {V} (d : dict V) (k : string) (v : V) : dict V :=
  match d with
  | [] => [(k, v)]
  | (k', v') :: d' =>
      if decide (k = k') then (k, v) :: d' else (k', v') :: set d' k v
  end.

End Py.

(** ** JSON values, as [request.get_json] and [jsonify] see them

    Numbers are integers here; [JNull] is Python's [None]. *)

#[warnings="-register-all"]
Inductive json : Type :=
  | JNull
  | JBool (b : bool)
  | JInt (n : Z)
  | JStr (s : string)
  | JArr (l : list json)
  | JObj (o : list (string * json)).

(** Truth value of a parsed body in [x or {}] and [not x]. *)
Definition truthy (j : json) : bool :=
  match j with
  | JNull => false
  | JBool b => b
  | JInt n => negb (n =? 0)
  | JStr s => negb (String.eqb s "")
  | JArr l => match l with [] => false | _ => true end
  | JObj o => match o with [] => false | _ => true end
  end.

(** ** Reflected tables *)

Inductive satype : Type :=
  | Integer | Numeric | Boolean | DateTime | Date | UUID | JSONB | Text.

Record Column : Type := { name : string; type : satype }.

#[export] Instance satype_eq_dec : EqDecision satype.
Proof. solve_decision. Defined.

#[export] Instance Column_eq_dec : EqDecision Column.
Proof. solve_decision. Defined.

(** [c] is [tbl.c] (all columns, in order), [primary_key] is
    [tbl.primary_key.columns].  Primary-key columns are columns of the
    table, so [tbl.c[c.name]] is defined for each of them. *)
Record Table : Type := { c : list Column; primary_key : list Column }.

Definition pk_columns (tbl : Table) : list Column := primary_key tbl.

Definition column_names (tbl : Table) : list string := name <$> c tbl.

(** [col in tbl.c] *)
Definition has_column (tbl : Table) (col : string) : bool :=
  bool_decide (col ∈ column_names tbl).

(** ** [cast_limit]

    [app.py] and [db.py] define the same function.  The [try] covers
    both lines of the body, but only [int(limit)] can raise. *)

Definition cast_limit (limit : option string) (default max_limit : Z) : Z :=
  match limit with
  | None => Z.max 1 (Z.min default max_limit)
  | Some s =>
      match Py.int s with
      | Some v => Z.max 1 (Z.min v max_limit)
      | None => default
      end
  end.

(** ** Statements and exceptions *)

(** A column comparison that the module gets built.  The right-hand
    side of [==] is whatever [args.get] returned, hence an option. *)
Inductive clause : Type :=
  | Eq (col : string) (val : option string)
  | Ge (col : string) (val : string)
  | Le (col : string) (val : string).

(** The conjunction [and_] builds from the list [conds]. *)
Inductive predicate : Type := And (conds : list clause).

Definition clauses (p : predicate) : list clause := let 'And cs := p in cs.

Inductive order : Type :=
  | Asc (col : string)
  | Desc (col : string).

(** The statements [handler] builds for its table.  [returning] lists
    the names of the columns passed to [.returning(...)]. *)
Inductive statement : Type :=
  | Select (whereclause : option predicate) (order_by : option order)
      (limit : Z) (offset : option Z)
  | Insert (values : Py.dict json) (returning : list string)
  | Update (whereclause : predicate) (values : Py.dict json)
      (returning : list string)
  | Delete (whereclause : predicate) (returning : list string).

(** [ValueError] carries the string it is about, [AssertionError] the
    endpoint name Flask refuses to register again. *)
Inductive exn : Type :=
  | HTTPException (code : Z) (description : string)
  | ValueError (literal : string)
  | AttributeError
  | TypeError
  | AssertionError (endpoint : string)
  | ResourceClosedError
  | DBAPIError (stmt : statement).

Inductive result (A : Type) : Type :=
  | Return (a : A)
  | Raise (e : exn).
Arguments Return {A} a.
Arguments Raise {A} e.

(** ** [build_filters] *)

Definition skip : list string := ["limit"; "offset"; "order_by"; "order_dir"].

Definition pk_names (tbl : Table) : list string := name <$> pk_columns tbl.

(** [all(c.name in args for c in pk_columns(tbl))] *)
Definition all_pk_present {V} (tbl : Table) (args : Py.dict V) : bool :=
  forallb (λ col, Py.contains args (name col)) (pk_columns tbl).

(** One iteration of the loop over [args.items()].  In the [_like]
    branch [tbl.c[col].cast(str)] hands SQLAlchemy the Python class
    [str] where it wants one of its own types, and [.ilike(val)] on the
    result raises [TypeError]: no ILIKE comparison is ever built. *)
Definition filter_step (tbl : Table) (conds : list clause)
    (kv : string * string) : result (list clause) :=
  let '(key, val) := kv in
  if bool_decide (key ∈ skip) || bool_decide (key ∈ pk_names tbl) then Return conds
  else if Py.endswith key "_gte" then
    let col := Py.drop_last 4 key in
    if has_column tbl col then Return (conds ++ [Ge col val]) else Return conds
  else if Py.endswith key "_lte" then
    let col := Py.drop_last 4 key in
    if has_column tbl col then Return (conds ++ [Le col val]) else Return conds
  else if Py.endswith key "_like" then
    let col := Py.drop_last 5 key in
    if has_column tbl col then Raise TypeError else Return conds
  else if has_column tbl key then Return (conds ++ [Eq key (Some val)])
  else Return conds.

(** The loop, left at the first iteration that raises. *)
Fixpoint filter_loop (tbl : Table) (conds : list clause)
    (kvs : list (string * string)) : result (list clause) :=
  match kvs with
  | [] => Return conds
  | kv :: kvs' =>
      match filter_step tbl conds kv with
      | Return conds' => filter_loop tbl conds' kvs'
      | Raise e => Raise e
      end
  end.

(** [tbl.c[c.name] == args.get(c.name)] for every primary-key column. *)
Definition pk_lookup (tbl : Table) (args : Py.dict string) : list clause :=
  (λ col, Eq (name col) (Py.get args (name col))) <$> pk_columns tbl.

Definition build_filters (tbl : Table) (args : Py.dict string)
    : result (option predicate) :=
  if all_pk_present tbl args then Return (Some (And (pk_lookup tbl args)))
  else
    match filter_loop tbl [] (Py.items args) with
    | Return [] => Return None
    | Return conds => Return (Some (And conds))
    | Raise e => Raise e
    end.

(** The parameters that are left when every key that is the name of a
    primary-key column is removed. *)
Definition without_pk_keys (tbl : Table) (args : Py.dict string) : Py.dict string :=
  List.filter (λ kv, negb (bool_decide (kv.1 ∈ pk_names tbl))) args.

(** ** [parse_order] *)

Definition parse_order (tbl : Table) (args : Py.dict string) : option order :=
  match Py.get args "order_by" with
  | None => None
  | Some ob =>
      if String.eqb ob "" || negb (has_column tbl ob) then None
      else
        let direction := Py.lower (default "desc" (Py.get args "order_dir")) in
        if String.eqb direction "desc" then Some (Desc ob) else Some (Asc ob)
  end.

(** ** The database connection *)

(** A [RowMapping]: column name to value. *)
Definition row : Type := Py.dict json.

(** What the engine and its driver decide by themselves: whether the
    engine runs a statement on the current rows or raises, whether a
    comparison holds on a row, how it sorts, which row an INSERT stores
    (server defaults included), how an UPDATE rewrites a row, which rows
    a negative LIMIT or OFFSET selects when the engine runs it (SQLite
    reads a negative LIMIT as no limit; PostgreSQL raises, which is
    [accepts]), and whether the Python values the driver returns for a
    row are all of types that Flask's JSON provider serialises (a
    [bytes] or [timedelta] value is not). *)
Record Engine : Type := {
  accepts : statement → list row → bool;
  holds : clause → row → bool;
  sorted : order → list row → list row;
  inserted : Py.dict json → list row → row;
  assigned : Py.dict json → row → row;
  negative_page : Z → option Z → list row → list row;
  jsonable : row → bool
}.

(** A statement without a RETURNING clause gives a result that returns
    no rows; fetching from it raises. *)
Record CursorResult : Type := { returns_rows : bool; fetched : list row }.

Definition matches (eng : Engine) (p : predicate) (r : row) : bool :=
  forallb (λ cl, holds eng cl r) (clauses p).

Definition project (cols : list string) (r : row) : row :=
  (λ col, (col, default JNull (Py.get r col))) <$> cols.

Definition has_returning (cols : list string) : bool :=
  match cols with [] => false | _ => true end.

(** [LIMIT l OFFSET off]; a statement without [.offset(...)] skips
    nothing. *)
Definition page (eng : Engine) (l : Z) (off : option Z) (rs : list row) : list row :=
  if (0 <=? l) && (0 <=? default 0 off)
  then take (Z.to_nat l) (drop (Z.to_nat (default 0 off)) rs)
  else negative_page eng l off rs.

(** Result and new table contents of an accepted statement. *)
Definition run (eng : Engine) (stmt : statement) (rs : list row)
    : CursorResult * list row :=
  match stmt with
  | Select w o l off =>
      let r1 := match w with Some p => List.filter (matches eng p) rs | None => rs end in
      let r2 := match o with Some ob => sorted eng ob r1 | None => r1 end in
      ({| returns_rows := true; fetched := page eng l off r2 |}, rs)
  | Insert vals ret =>
      let r := inserted eng vals rs in
      ({| returns_rows := has_returning ret; fetched := [r] |}, rs ++ [r])
  | Update p vals ret =>
      ({| returns_rows := has_returning ret;
          fetched := assigned eng vals <$> List.filter (matches eng p) rs |},
       (λ r, if matches eng p r then assigned eng vals r else r) <$> rs)
  | Delete p ret =>
      ({| returns_rows := has_returning ret;
          fetched := project ret <$> List.filter (matches eng p) rs |},
       List.filter (λ r, negb (matches eng p r)) rs)
  end.

(** ** State *)

(** The rows of the table and the statements sent to the engine so far. *)
Record world : Type := { rows : list row; log : list statement }.

Definition M (A : Type) : Type := world → result A * world.

#[export] Instance M_ret : MRet M := λ A a w, (Return a, w).
#[export] Instance M_bind : MBind M := λ A B f m w,
  match m w with
  | (Return a, w') => f a w'
  | (Raise e, w') => (Raise e, w')
  end.

Definition raise {A} (e : exn) : M A := λ w, (Raise e, w).

(** A helper that returns or raises without touching the database. *)
Definition lift {A} (r : result A) : M A := λ w, (r, w).

(** [abort(code, description=...)] *)
Definition abort {A} (code : Z) (description : string) : M A :=
  raise (HTTPException code description).

(** [conn.execute(stmt)] *)
Definition execute (eng : Engine) (stmt : statement) : M CursorResult := λ w,
  let sent := log w ++ [stmt] in
  if accepts eng stmt (rows w) then
    let '(res, rs) := run eng stmt (rows w) in
    (Return res, {| rows := rs; log := sent |})
  else (Raise (DBAPIError stmt), {| rows := rows w; log := sent |}).

(** [result.first()] and [result.all()] *)
Definition first (res : CursorResult) : M (option row) :=
  if returns_rows res then mret (head (fetched res)) else raise ResourceClosedError.

Definition all (res : CursorResult) : M (list row) :=
  if returns_rows res then mret (fetched res) else raise ResourceClosedError.

(** [with engine.connect() as conn: ...]: nothing is committed, the
    rows are those of before the block. *)
Definition connect {A} (m : M A) : M A := λ w,
  let '(r, w') := m w in (r, {| rows := rows w; log := log w' |}).

(** [with engine.begin() as conn: ...]: commit on exit, roll back when
    the block raises. *)
Definition begin {A} (m : M A) : M A := λ w,
  match m w with
  | (Return a, w') => (Return a, w')
  | (Raise e, w') => (Raise e, {| rows := rows w; log := log w' |})
  end.

(** ** Requests, configuration, responses *)

(** [request.method], [request.args] and the value of
    [request.get_json(silent=True)] ([JNull] when it returns [None]). *)
Record Request : Type := { method : string; args : Py.dict string; get_json : json }.

Record Config : Type := { DEFAULT_LIMIT : Z; MAX_LIMIT : Z; READ_ONLY : gset string }.

(** What [jsonify] is applied to, by the view and by the error handlers. *)
Inductive body : Type :=
  | Record_ (r : row)
  | Listing (data : list row) (limit offset : Z)
  | Deleted
  | HttpError (error message : string) (status : Z)
  | InternalError (e : exn).

Record Response : Type := { status_code : Z; payload : body }.

(** The rows a body holds. *)
Definition rows_of (b : body) : list row :=
  match b with
  | Record_ r => [r]
  | Listing data _ _ => data
  | _ => []
  end.

(** [jsonify(...)] in the view: it raises [TypeError] at a value that
    the JSON provider does not serialise.  The bodies of the error
    handlers hold strings and integers only. *)
Definition jsonify (eng : Engine) (b : body) : M body :=
  if forallb (jsonable eng) (rows_of b) then mret b else raise TypeError.

(** [HTTPException.name] for the codes the module aborts with. *)
Definition http_name (code : Z) : string :=
  if code =? 400 then "Bad Request"
  else if code =? 404 then "Not Found"
  else if code =? 405 then "Method Not Allowed"
  else "Unknown Error".

Definition handle_http_error (code : Z) (description : string) : Response :=
  {| status_code := code; payload := HttpError (http_name code) description code |}.

Definition handle_any_error (e : exn) : Response :=
  {| status_code := 500; payload := InternalError e |}.

(** ** [payload_known_columns] and [require_pk_params] *)

(** [x or {}] *)
Definition or_empty (j : json) : json := if truthy j then j else JObj [].

Definition payload_known_columns (tbl : Table) (payload : json) : M (Py.dict json) :=
  match or_empty payload with
  | JObj o => mret (List.filter (λ kv, has_column tbl kv.1) (Py.items o))
  | _ => raise AttributeError
  end.

Definition missing_pk (col : string) : string :=
  "Missing primary key parameter '" +:+ col +:+ "'".

Fixpoint require_pk_loop (cols : list Column) (args : Py.dict string)
    (data : Py.dict string) : M (Py.dict string) :=
  match cols with
  | [] => mret data
  | col :: cols' =>
      match Py.get args (name col) with
      | None => abort 400 (missing_pk (name col))
      | Some v => require_pk_loop cols' args (Py.set data (name col) v)
      end
  end.

Definition require_pk_params (tbl : Table) (args : Py.dict string) : M (Py.dict string) :=
  require_pk_loop (pk_columns tbl) args [].

(** ** [handler], for the table registered under [name] *)

Definition read_only (name : string) : string := "Table '" +:+ name +:+ "' is read-only".

(** [int(request.args.get("offset", 0))] *)
Definition parse_offset (a : Py.dict string) : M Z :=
  match Py.get a "offset" with
  | None => mret 0
  | Some s => match Py.int s with Some v => mret v | None => raise (ValueError s) end
  end.

(** [and_] over [table.c[k] == v] for the items of [pkd]. *)
Definition pk_equals (pkd : Py.dict string) : predicate :=
  And ((λ kv, Eq kv.1 (Some kv.2)) <$> Py.items pkd).

(** [if not row: abort(404)] *)
Definition or_404 (r : option row) : M row :=
  match r with
  | None => abort 404 "Not found"
  | Some [] => abort 404 "Not found"
  | Some r => mret r
  end.

Section Handler.

Context (eng : Engine) (cfg : Config) (name : string) (table : Table).

Definition get_one (request : Request) : M (body * Z) :=
  let where_ := And (pk_lookup table (args request)) in
  let stmt := Select (Some where_) None 1 None in
  r ← connect (execute eng stmt ≫= first);
  r ← or_404 r;
  b ← jsonify eng (Record_ r);
  mret (b, 200).

Definition get_list (request : Request) : M (body * Z) :=
  let limit := cast_limit (Py.get (args request) "limit") (DEFAULT_LIMIT cfg) (MAX_LIMIT cfg) in
  offset ← parse_offset (args request);
  where_ ← lift (build_filters table (args request));
  let order := parse_order table (args request) in
  let stmt := Select where_ order limit (Some offset) in
  rs ← connect (execute eng stmt ≫= all);
  b ← jsonify eng (Listing rs limit offset);
  mret (b, 200).

Definition do_post (request : Request) : M (body * Z) :=
  if bool_decide (name ∈ READ_ONLY cfg) then abort 405 (read_only name)
  else
    payload ← payload_known_columns table (or_empty (get_json request));
    match payload with
    | [] => abort 400 "Empty payload or unknown fields"
    | _ =>
        let stmt := Insert payload (column_names table) in
        r ← begin (execute eng stmt ≫= first);
        match r with
        | Some r => b ← jsonify eng (Record_ r); mret (b, 201)
        | None => raise TypeError
        end
    end.

Definition do_put (request : Request) : M (body * Z) :=
  if bool_decide (name ∈ READ_ONLY cfg) then abort 405 (read_only name)
  else
    pkd ← require_pk_params table (args request);
    payload ← payload_known_columns table (or_empty (get_json request));
    match payload with
    | [] => abort 400 "Empty payload or unknown fields"
    | _ =>
        let stmt := Update (pk_equals pkd) payload (column_names table) in
        r ← begin (execute eng stmt ≫= first);
        r ← or_404 r;
        b ← jsonify eng (Record_ r);
        mret (b, 200)
    end.

Definition do_delete (request : Request) : M (body * Z) :=
  if bool_decide (name ∈ READ_ONLY cfg) then abort 405 (read_only name)
  else
    pkd ← require_pk_params table (args request);
    let stmt := Delete (pk_equals pkd) (pk_names table) in
    r ← begin (execute eng stmt ≫= first);
    _ ← or_404 r;
    mret (Deleted, 200).

Definition handler (request : Request) : M (body * Z) :=
  let m := method request in
  if String.eqb m "GET" then
    if all_pk_present table (args request) then get_one request else get_list request
  else if String.eqb m "POST" then do_post request
  else if String.eqb m "PUT" || String.eqb m "PATCH" then do_put request
  else if String.eqb m "DELETE" then do_delete request
  else abort 405 "Method not allowed".

(** Flask calls the view and renders what it returns, or hands the
    exception to the error handler registered for its class. *)
Definition serve (request : Request) (w : world) : Response * world :=
  match handler request w with
  | (Return (b, st), w') => ({| status_code := st; payload := b |}, w')
  | (Raise (HTTPException code description), w') => (handle_http_error code description, w')
  | (Raise e, w') => (handle_any_error e, w')
  end.

End Handler.

(** ** A small instance

    A toll-plaza table with a single-column key, a tariff table with a
    composite key, a log table without a key, and an engine that
    compares text cells with the parameter strings, reads a negative
    LIMIT as no limit and returns values that all serialise. *)

Module Sample.

Definition col (n : string) (t : satype) : Column := {| name := n; type := t |}.

Definition plazas : Table :=
  {| c := [col "id" Integer; col "nombre" Text; col "ruta" Text];
     primary_key := [col "id" Integer] |}.

Definition tarifas : Table :=
  {| c := [col "plaza_id" Integer; col "categoria" Text; col "monto" Numeric];
     primary_key := [col "plaza_id" Integer; col "categoria" Text] |}.

Definition eventos : Table :=
  {| c := [col "momento" DateTime; col "detalle" Text]; primary_key := [] |}.

(** A key column whose own name ends in [_gte]. *)
Definition lecturas : Table :=
  {| c := [col "id" Integer; col "id_gte" Integer; col "valor" Numeric];
     primary_key := [col "id_gte" Integer; col "valor" Numeric] |}.

Definition cell_is (r : row) (column : string) (v : option string) : bool :=
  match Py.get r column, v with
  | Some (JStr s), Some t => String.eqb s t
  | Some JNull, None => true
  | _, _ => false
  end.

Definition engine : Engine :=
  {| accepts := λ _ _, true;
     holds := λ cl r,
       match cl with
       | Eq column v => cell_is r column v
       | Ge column v => cell_is r column (Some v)
       | Le column v => cell_is r column (Some v)
       end;
     sorted := λ _ rs, rs;
     inserted := λ vals _, vals;
     assigned := λ vals r, foldl (λ acc kv, Py.set acc kv.1 kv.2) r vals;
     negative_page := λ l off rs,
       let rs' := drop (Z.to_nat (default 0 off)) rs in
       if l <? 0 then rs' else take (Z.to_nat l) rs';
     jsonable := λ _, true |}.

Definition config : Config :=
  {| DEFAULT_LIMIT := 100; MAX_LIMIT := 1000; READ_ONLY := {["eventos"]} |}.

Definition stored : world :=
  {| rows := [[("id", JStr "1"); ("nombre", JStr "Norte"); ("ruta", JStr "RN9")];
              [("id", JStr "2"); ("nombre", JStr "Sur"); ("ruta", JStr "RN3")]];
     log := [] |}.

Definition tariffs : world :=
  {| rows := [[("plaza_id", JStr "1"); ("categoria", JStr "A"); ("monto", JInt 90)];
              [("plaza_id", JStr "2"); ("categoria", JStr "A"); ("monto", JInt 70)]];
     log := [] |}.

Definition events : world :=
  {| rows := [[("momento", JStr "2024-05-01T08:00:00"); ("detalle", JStr "apertura")];
              [("momento", JStr "2024-05-01T20:00:00"); ("detalle", JStr "cierre")]];
     log := [] |}.

Definition empty : world := {| rows := []; log := [] |}.

Definition GET (a : Py.dict string) : Request :=
  {| method := "GET"; args := a; get_json := JNull |}.

Definition POST (j : json) : Request :=
  {| method := "POST"; args := []; get_json := j |}.

Definition DELETE (a : Py.dict string) : Request :=
  {| method := "DELETE"; args := a; get_json := JNull |}.

End Sample.

(** ** What the filters and the statements name *)

Definition clause_column (cl : clause) : string :=
  match cl with
  | Eq col _ | Ge col _ | Le col _ => col
  end.

Definition has_suffix (key : string) : bool :=
  Py.endswith key "_gte" || Py.endswith key "_lte" || Py.endswith key "_like".

(** The keys at which the loop reaches [.cast(str).ilike(val)]. *)
Definition like_on_column (tbl : Table) (key : string) : bool :=
  negb (bool_decide (key ∈ skip)) && negb (bool_decide (key ∈ pk_names tbl))
  && negb (Py.endswith key "_gte") && negb (Py.endswith key "_lte")
  && Py.endswith key "_like" && has_column tbl (Py.drop_last 5 key).

Definition without_reserved (args : Py.dict string) : Py.dict string :=
  List.filter (λ kv, negb (bool_decide (kv.1 ∈ skip))) args.

(** Columns a statement names. *)
Definition order_column (o : order) : string :=
  match o with Asc col | Desc col => col end.

Definition is_select (stmt : statement) : bool :=
  match stmt with Select _ _ _ _ => true | _ => false end.

Definition statement_columns (stmt : statement) : list string :=
  match stmt with
  | Select w o _ _ =>
      (clause_column <$> from_option clauses [] w) ++ (order_column <$> option_list o)
  | Insert vals ret => vals.*1 ++ ret
  | Update p vals ret => (clause_column <$> clauses p) ++ vals.*1 ++ ret
  | Delete p ret => (clause_column <$> clauses p) ++ ret
  end.

(** ** Answers and postconditions *)

(** What Flask makes of the outcome of the view. *)
Definition render (r : result (body * Z)) : Response :=
  match r with
  | Return (b, st) => {| status_code := st; payload := b |}
  | Raise (HTTPException code description) => handle_http_error code description
  | Raise e => handle_any_error e
  end.

(** The status codes and the shape of the body that goes with each. *)
Definition answer_ok (r : Response) : Prop :=
  match payload r with
  | Record_ _ => status_code r = 200 ∨ status_code r = 201
  | Listing _ _ _ => status_code r = 200
  | Deleted => status_code r = 200
  | HttpError error _ st =>
      status_code r = st ∧
      (st = 400 ∧ error = "Bad Request" ∨ st = 404 ∧ error = "Not Found" ∨
       st = 405 ∧ error = "Method Not Allowed")
  | InternalError _ => status_code r = 500
  end.

(** Postconditions of a computation started in [w]. *)
Definition post {A} (m : M A) (w : world) (Q : result A → world → Prop) : Prop :=
  Q (m w).1 (m w).2.

(** The rows the primary-key parameters of a request designate. *)
Definition by_key (eng : Engine) (tbl : Table) (req : Request) (r : row) : bool :=
  matches eng (And (pk_lookup tbl (args req))) r.


(** ** [db.py] *)
Module Db.

(** [cast_limit] of [db.py]: the same body as in [app.py], for a
    [limit] that is an [int] or [None], on which [int(limit)] is the
    identity and the [except] branch is not reached. *)
Definition cast_limit (limit : option Z) (default max_limit : Z) : Z :=
  let v := match limit with Some n => n | None => default end in
  Z.max 1 (Z.min v max_limit).

End Db.

(** ** Start-up: the configuration and the registration of the endpoints *)

(** [s.rstrip(chars)] and the test that a string is made of [chars]. *)
Fixpoint str_rstrip (chars : string) (s : string) : string :=
  match s with
  | EmptyString => EmptyString
  | String a s' =>
      match str_rstrip chars s' with
      | EmptyString =>
          if existsb (Ascii.eqb a) (list_ascii_of_string chars)
          then EmptyString else String a EmptyString
      | r => String a r
      end
  end.

Fixpoint all_in (chars : string) (s : string) : bool :=
  match s with
  | EmptyString => true
  | String a s' => existsb (Ascii.eqb a) (list_ascii_of_string chars) && all_in chars s'
  end.

(** The keys of the [api] section of the configuration, and of its
    [docs] subsection, that the module reads besides the limits and the
    read-only set; an absent key is [None]. *)
Record Api : Type := {
  base_prefix : option string;
  expose_tables : list string;
  docs_enabled : bool;
  docs_title : option string;
  docs_version : option string
}.

Definition BASE (api : Api) : string :=
  str_rstrip "/" (default "/api" (base_prefix api)).

(** [f"{BASE}/{name}"] *)
Definition table_path (api : Api) (name : string) : string :=
  BASE api +:+ "/" +:+ name.

(** [meta.tables] *)
Definition MetaData : Type := Py.dict Table.

Definition get_table_or_404 (meta : MetaData) (name : string) : result Table :=
  match Py.get meta name with
  | Some tbl => Return tbl
  | None => Raise (HTTPException 404 ("Unknown table '" +:+ name +:+ "'"))
  end.

(** What [app.add_url_rule] is given; [view] is the table the handler
    closes over. *)
Record Rule : Type := {
  rule : string;
  endpoint : string;
  methods : list string;
  view : Table
}.

Definition table_rule (api : Api) (name : string) (tbl : Table) : Rule :=
  {| rule := table_path api name; endpoint := name +:+ "_endpoint";
     methods := ["GET"; "POST"; "PUT"; "PATCH"; "DELETE"]; view := tbl |}.

(** A rule has to begin with a slash: [Rule.__init__] raises
    [ValueError] otherwise. *)
Definition leading_slash (rule : string) : bool :=
  match rule with
  | String "/" _ => true
  | _ => false
  end.

(** [app.add_url_rule(path, endpoint=..., view_func=handler, methods=...)]
    on the rules registered so far.  werkzeug refuses a rule that does
    not begin with a slash or that it cannot parse (an unbalanced [<] or
    [>]; [parses] is its verdict), both with [ValueError]; Flask then
    refuses an endpoint name that already has a view function, here
    always another closure, with [AssertionError]. *)
Definition add_url_rule (parses : string → bool) (rules : list Rule) (r : Rule)
    : result (list Rule) :=
  if negb (leading_slash (rule r)) then Raise (ValueError (rule r))
  else if negb (parses (rule r)) then Raise (ValueError (rule r))
  else if bool_decide (endpoint r ∈ endpoint <$> rules) then Raise (AssertionError (endpoint r))
  else Return (rules ++ [r]).

Definition register_table_endpoint (parses : string → bool) (api : Api) (meta : MetaData)
    (rules : list Rule) (name : string) : result (list Rule) :=
  match get_table_or_404 meta name with
  | Raise e => Raise e
  | Return table =>
      let path := table_path api name in
      add_url_rule parses rules
        {| rule := path; endpoint := name +:+ "_endpoint";
           methods := ["GET"; "POST"; "PUT"; "PATCH"; "DELETE"]; view := table |}
  end.

(** [for t in cfg["api"]["expose_tables"]: register_table_endpoint(t)];
    importing the module stops at the first exception.  When the loop
    runs, [meta.reflect(bind=engine, only=expose_tables)] has returned,
    which it does only if every name is a table of the database: the
    theorems about the loop take that as their hypothesis. *)
Fixpoint register_all (parses : string → bool) (api : Api) (meta : MetaData)
    (rules : list Rule) (names : list string) : result (list Rule) :=
  match names with
  | [] => Return rules
  | t :: names' =>
      match register_table_endpoint parses api meta rules t with
      | Raise e => Raise e
      | Return rules' => register_all parses api meta rules' names'
      end
  end.

(** ** The API description *)

(** The column type is the first test of the function it passes. *)
Definition _oa_schema_for_col (col : Column) : json :=
  match type col with
  | Integer => JObj [("type", JStr "integer")]
  | Numeric => JObj [("type", JStr "number")]
  | Boolean => JObj [("type", JStr "boolean")]
  | DateTime => JObj [("type", JStr "string"); ("format", JStr "date-time")]
  | Date => JObj [("type", JStr "string"); ("format", JStr "date")]
  | UUID => JObj [("type", JStr "string"); ("format", JStr "uuid")]
  | JSONB => JObj [("type", JStr "object")]
  | Text => JObj [("type", JStr "string")]
  end.

Definition _schema_for_table (tbl : Table) : json :=
  let props := foldl (λ d col, Py.set d (name col) (_oa_schema_for_col col)) [] (c tbl) in
  JObj [("type", JStr "object"); ("properties", JObj props)].

(** The four entries [filter_params] starts with. *)
Definition paging_params : list json :=
  [JObj [("name", JStr "limit"); ("in", JStr "query");
         ("schema", JObj [("type", JStr "integer")])];
   JObj [("name", JStr "offset"); ("in", JStr "query");
         ("schema", JObj [("type", JStr "integer")])];
   JObj [("name", JStr "order_by"); ("in", JStr "query");
         ("schema", JObj [("type", JStr "string")])];
   JObj [("name", JStr "order_dir"); ("in", JStr "query");
         ("schema", JObj [("type", JStr "string");
                          ("enum", JArr [JStr "asc"; JStr "desc"])])]].

(** The four entries appended for one column. *)
Definition column_params (col : Column) : list json :=
  [JObj [("name", JStr (name col)); ("in", JStr "query"); ("required", JBool false);
         ("schema", _oa_schema_for_col col)];
   JObj [("name", JStr (name col +:+ "_gte")); ("in", JStr "query");
         ("required", JBool false); ("schema", JObj [("type", JStr "string")])];
   JObj [("name", JStr (name col +:+ "_lte")); ("in", JStr "query");
         ("required", JBool false); ("schema", JObj [("type", JStr "string")])];
   JObj [("name", JStr (name col +:+ "_like")); ("in", JStr "query");
         ("required", JBool false); ("schema", JObj [("type", JStr "string")])]].

(** The names [filter_params] holds for one column. *)
Definition column_param_names (col : string) : list string :=
  [col; col +:+ "_gte"; col +:+ "_lte"; col +:+ "_like"].

Definition filter_params (tbl : Table) : list json :=
  foldl (λ ps col, ps ++ column_params col) paging_params (c tbl).

(** The parameters of PUT, PATCH and DELETE: one per key column. *)
Definition key_params (tbl : Table) : list json :=
  (λ col, JObj [("name", JStr (name col)); ("in", JStr "query");
                ("required", JBool true); ("schema", _oa_schema_for_col col)])
    <$> pk_columns tbl.

Definition body_of (name : string) : json :=
  JObj [("required", JBool true);
        ("content",
         JObj [("application/json",
                JObj [("schema",
                       JObj [("$ref", JStr ("#/components/schemas/" +:+ name))])])])].

Definition described (text : string) : json := JObj [("description", JStr text)].

Definition path_item (name : string) (tbl : Table) : json :=
  JObj
    [("get",
      JObj [("summary", JStr ("List or get " +:+ name));
            ("description",
             JStr "If all primary key params are provided → returns a single record; otherwise returns a filtered list.");
            ("parameters", JArr (filter_params tbl));
            ("responses",
             JObj [("200", described "OK");
                   ("404", described "Not found (when PK provided and not exists)")])]);
     ("post",
      JObj [("summary", JStr ("Create " +:+ name));
            ("requestBody", body_of name);
            ("responses",
             JObj [("201", described "Created"); ("400", described "Bad request")])]);
     ("put",
      JObj [("summary", JStr ("Update " +:+ name +:+ " (requires PK params)"));
            ("parameters", JArr (key_params tbl));
            ("requestBody", body_of name);
            ("responses",
             JObj [("200", described "Updated"); ("400", described "Bad request");
                   ("404", described "Not found")])]);
     ("patch",
      JObj [("summary", JStr ("Partial update " +:+ name +:+ " (requires PK params)"));
            ("parameters", JArr (key_params tbl));
            ("requestBody", body_of name);
            ("responses",
             JObj [("200", described "Updated"); ("400", described "Bad request");
                   ("404", described "Not found")])]);
     ("delete",
      JObj [("summary", JStr ("Delete " +:+ name +:+ " (requires PK params)"));
            ("parameters", JArr (key_params tbl));
            ("responses",
             JObj [("200", described "Deleted"); ("404", described "Not found")])])].

(** One iteration of the loop over [meta.tables.items()], on the two
    dictionaries it fills: [spec["paths"]] and
    [spec["components"]["schemas"]]. *)
Definition describe_table (api : Api) (acc : Py.dict json * Py.dict json)
    (entry : string * Table) : Py.dict json * Py.dict json :=
  let '(paths, schemas) := acc in
  let '(name, tbl) := entry in
  if bool_decide (name ∈ expose_tables api) then
    (Py.set paths (table_path api name) (path_item name tbl),
     Py.set schemas name (_schema_for_table tbl))
  else acc.

Definition described_tables (api : Api) (meta : MetaData) : Py.dict json * Py.dict json :=
  foldl (describe_table api) ([], []) (Py.items meta).

(** The reflected tables the configuration exposes, in the order of
    [meta.tables]. *)
Definition exposed (api : Api) (meta : MetaData) : list (string * Table) :=
  List.filter (λ kv, bool_decide (kv.1 ∈ expose_tables api)) (Py.items meta).

Definition path_entry (api : Api) (kv : string * Table) : string * json :=
  (table_path api kv.1, path_item kv.1 kv.2).

Definition schema_entry (kv : string * Table) : string * json :=
  (kv.1, _schema_for_table kv.2).

Definition build_openapi_spec (api : Api) (meta : MetaData) : json :=
  let title := default "API" (docs_title api) in
  let version := default "1.0.0" (docs_version api) in
  let '(paths, schemas) := described_tables api meta in
  JObj [("openapi", JStr "3.0.3");
        ("info", JObj [("title", JStr title); ("version", JStr version)]);
        ("paths", JObj paths);
        ("components", JObj [("schemas", JObj schemas)])].

(** [openapi_json]: the body and the status. *)
Definition openapi_json (api : Api) (meta : MetaData) : json * Z :=
  if docs_enabled api then (build_openapi_spec api meta, 200)
  else (JObj [("error", JStr "docs disabled in config")], 404).

(** Reading the description back. *)
Definition member (key : string) (j : json) : option json :=
  match j with JObj o => Py.get o key | _ => None end.

Definition param_name (p : json) : option string :=
  match member "name" p with Some (JStr s) => Some s | _ => None end.

Definition documented_paths (spec : json) : list string :=
  match member "paths" spec with Some (JObj paths) => paths.*1 | _ => [] end.

(** [j[k1][k2]...], when every step is an object with the key. *)
Definition descend (keys : list string) (j : json) : option json :=
  foldl (λ acc key, match acc with Some x => member key x | None => None end)
        (Some j) keys.

(** The parameter names the description gives for a method of a path. *)
Definition documented_params (spec : json) (path method : string) : list string :=
  match descend ["paths"; path; method; "parameters"] spec with
  | Some (JArr ps) => omap param_name ps
  | _ => []
  end.

(** ** A small deployment

    The three sample tables as reflected metadata, two of them exposed
    under a prefix written with a trailing slash. *)

Module Deployment.

Definition meta : MetaData :=
  [("plazas", Sample.plazas); ("tarifas", Sample.tarifas); ("eventos", Sample.eventos)].

Definition api : Api :=
  {| base_prefix := Some "/peajes/"; expose_tables := ["plazas"; "tarifas"];
     docs_enabled := true; docs_title := None; docs_version := None |}.

Definition PUT (a : Py.dict string) (j : json) : Request :=
  {| method := "PUT"; args := a; get_json := j |}.

Definition HEAD : Request := {| method := "HEAD"; args := []; get_json := JNull |}.

(** The sample engine behind a driver that returns a [bytes] value in
    every row. *)
Definition blobs : Engine :=
  {| accepts := accepts Sample.engine; holds := holds Sample.engine;
     sorted := sorted Sample.engine; inserted := inserted Sample.engine;
     assigned := assigned Sample.engine;
     negative_page := negative_page Sample.engine;
     jsonable := λ _, false |}.

(** werkzeug on rules without placeholders: a rule parses when it holds
    neither [<] nor [>]. *)
Definition plain (rule : string) : bool :=
  forallb (λ a, negb (Ascii.eqb a "<") && negb (Ascii.eqb a ">")) (list_ascii_of_string rule).

End Deployment.

(** * Properties *)

(** ** What [int()] accepts *)

Example int_plain : Py.int "250" = Some 250.
Proof. reflexivity. Qed.

Example int_signed_padded : Py.int "  -7 " = Some (-7).
Proof. reflexivity. Qed.

Example int_grouped : Py.int "+1_000" = Some 1000.
Proof. reflexivity. Qed.

Example int_rejects :
  Py.int "" = None ∧ Py.int "abc" = None ∧ Py.int "10.5" = None ∧
  Py.int "1__0" = None ∧ Py.int "_1" = None ∧ Py.int "1_" = None ∧
  Py.int "- 1" = None ∧ Py.int "0x10" = None.
Proof. repeat split. Qed.

(** Digits and white space outside ASCII count; the separators FS to
    US do not. *)
Example int_unicode :
  Py.int "٣" = Some 3 ∧ Py.int "１２" = Some 12 ∧ Py.int " ٣　" = Some 3 ∧
  Py.int (String (ascii_of_nat 28) "7") = None ∧ Py.int "٣x" = None ∧
  Py.int "½" = None.
Proof. repeat split. Qed.

Example lower_mixed : Py.lower "DeSc" = "desc" ∧ Py.lower "ASC" = "asc".
Proof. split; reflexivity. Qed.

(** ** Dictionaries *)

Section Dict.

Context {V : Type}.
Implicit Types (d : Py.dict V) (k : string) (seen : list string).

Lemma get_Some_key d k v : Py.get d k = Some v → k ∈ d.*1.
Proof.
  induction d as [|[k' v'] d IH]; simpl; [done|].
  destruct (decide (k = k')) as [->|]; [left | right; auto].
Qed.

Lemma get_is_Some d k : k ∈ d.*1 → is_Some (Py.get d k).
Proof.
  induction d as [|[k' v'] d IH]; simpl.
  - by intros ?%elem_of_nil.
  - destruct (decide (k = k')); [by eexists|].
    intros [?|?]%elem_of_cons; [done | auto].
Qed.

Lemma contains_true d k : Py.contains d k = true ↔ k ∈ d.*1.
Proof. apply bool_decide_eq_true. Qed.

Lemma contains_false d k : Py.contains d k = false ↔ k ∉ d.*1.
Proof. apply bool_decide_eq_false. Qed.

(** Only the membership of the keys of [d] in [seen] matters. *)
Lemma items_from_seen seen seen' d :
  (∀ k, k ∈ d.*1 → k ∈ seen ↔ k ∈ seen') →
  Py.items_from seen d = Py.items_from seen' d.
Proof.
  revert seen seen'. induction d as [|[k v] d IH]; intros seen seen' H; simpl; [done|].
  assert (Hk : k ∈ seen ↔ k ∈ seen') by (apply H; left).
  destruct (decide (k ∈ seen)), (decide (k ∈ seen')); try tauto.
  - apply IH. intros k' ?. apply H. by right.
  - f_equal. apply IH. intros k' ?. rewrite !elem_of_cons.
    assert (k' ∈ seen ↔ k' ∈ seen') by (apply H; by right). tauto.
Qed.

Lemma items_from_filter (keep : string → bool) seen d :
  Py.items_from seen (List.filter (λ kv, keep kv.1) d)
  = List.filter (λ kv, keep kv.1) (Py.items_from seen d).
Proof.
  revert seen. induction d as [|[k v] d IH]; intros seen; simpl; [done|].
  destruct (keep k) eqn:Hk; simpl.
  - destruct (decide (k ∈ seen)); [apply IH|]. simpl. rewrite Hk. f_equal. apply IH.
  - destruct (decide (k ∈ seen)); [apply IH|]. simpl. rewrite Hk, <- IH.
    apply items_from_seen. intros k' Hk'. rewrite elem_of_cons.
    assert (k' ≠ k); [|tauto]. intros ->.
    apply list_elem_of_fmap in Hk' as ([k1 v1] & -> & Hin).
    apply list_elem_of_In, filter_In in Hin as [_ Hin]. simpl in *. congruence.
Qed.

Lemma get_set d k v k' :
  Py.get (Py.set d k v) k' = if decide (k' = k) then Some v else Py.get d k'.
Proof.
  induction d as [|[k1 v1] d IH]; simpl.
  - destruct (decide (k' = k)); done.
  - destruct (decide (k = k1)) as [->|Hne]; simpl.
    + destruct (decide (k' = k1)); done.
    + destruct (decide (k' = k1)) as [->|].
      * destruct (decide (k1 = k)); congruence.
      * apply IH.
Qed.

Lemma elem_items_from seen d k v :
  (k, v) ∈ Py.items_from seen d ↔ (k ∉ seen) ∧ Py.get d k = Some v.
Proof.
  revert seen. induction d as [|[k1 v1] d IH]; intros seen; simpl.
  - rewrite elem_of_nil. split; [done | by intros [_ ?]].
  - destruct (decide (k1 ∈ seen)) as [Hin|Hout].
    + rewrite IH. destruct (decide (k = k1)) as [->|]; [|done].
      split; intros [? _]; done.
    + rewrite elem_of_cons, IH, not_elem_of_cons.
      destruct (decide (k = k1)) as [->|Hne].
      * split; [intros [[= ->]|[[? _] _]]; done | intros [_ [= ->]]; by left].
      * split; [intros [[= ? ?]|[[_ ?] ?]]; done | intros [? ?]; by right].
Qed.

Lemma elem_items d k v : (k, v) ∈ Py.items d ↔ Py.get d k = Some v.
Proof.
  unfold Py.items. rewrite elem_items_from, elem_of_nil.
  split; [by intros [_ ?] | intros ?; split; [tauto | done]].
Qed.

Lemma items_filter (keep : string → bool) d :
  Py.items (List.filter (λ kv, keep kv.1) d)
  = List.filter (λ kv, keep kv.1) (Py.items d).
Proof. apply items_from_filter. Qed.

End Dict.

(** ** Filters *)

Lemma all_pk_present_true {V} (tbl : Table) (args : Py.dict V) :
  all_pk_present tbl args = true ↔ Forall (λ col, name col ∈ args.*1) (pk_columns tbl).
Proof.
  unfold all_pk_present. induction (pk_columns tbl) as [|col cols IH]; simpl.
  - split; [constructor | done].
  - rewrite andb_true_iff, Forall_cons, IH, contains_true. done.
Qed.

Lemma all_pk_present_false {V} (tbl : Table) (args : Py.dict V) :
  all_pk_present tbl args = false ↔ ∃ col, col ∈ pk_columns tbl ∧ name col ∉ args.*1.
Proof.
  rewrite <- not_true_iff_false, all_pk_present_true, <- Exists_Forall_neg.
  - apply Exists_exists.
  - intros col. destruct (decide (name col ∈ args.*1)); tauto.
Qed.

Lemma pk_lookup_values (args : Py.dict string) (cols : list Column) :
  Forall (λ col, name col ∈ args.*1) cols →
  ∃ vals : list string,
    Forall2 (λ col v, Py.get args (name col) = Some v) cols vals ∧
    (λ col, Eq (name col) (Py.get args (name col))) <$> cols
    = zip_with (λ col v, Eq (name col) (Some v)) cols vals.
Proof.
  induction 1 as [|col cols Hcol _ (vals & Hvals & Heq)].
  - exists []. split; [constructor | done].
  - destruct (get_is_Some _ _ Hcol) as [v Hv]. exists (v :: vals). split.
    + by constructor.
    + rewrite fmap_cons, Hv, Heq. done.
Qed.

(** C4.  When the table has a primary key and every primary-key column
    name is a key of the parameters, [build_filters] returns the
    conjunction of one equality per primary-key column, in key order,
    each against the string the parameters hold for that column, and
    nothing else. *)
Theorem build_filters_identity (tbl : Table) (args : Py.dict string) :
  pk_columns tbl ≠ [] →
  Forall (λ col, name col ∈ args.*1) (pk_columns tbl) →
  ∃ vals : list string,
    Forall2 (λ col v, Py.get args (name col) = Some v) (pk_columns tbl) vals ∧
    build_filters tbl args
    = Return (Some (And (zip_with (λ col v, Eq (name col) (Some v)) (pk_columns tbl) vals))).
Proof.
  intros _ Hall. unfold build_filters.
  rewrite (proj2 (all_pk_present_true tbl args) Hall).
  destruct (pk_lookup_values args _ Hall) as (vals & Hvals & Heq).
  exists vals. split; [done|]. unfold pk_lookup. by rewrite Heq.
Qed.

Lemma build_filters_identity_witness :
  ∃ vals : list string,
    Forall2
      (λ col v,
         Py.get [("limit", "5"); ("categoria", "2"); ("plaza_id", "1 ")] (name col)
         = Some v)
      (pk_columns Sample.tarifas) vals ∧
    build_filters Sample.tarifas [("limit", "5"); ("categoria", "2"); ("plaza_id", "1 ")]
    = Return
        (Some (And (zip_with (λ col v, Eq (name col) (Some v)) (pk_columns Sample.tarifas) vals))).
Proof.
  apply build_filters_identity.
  - discriminate.
  - compute_done.
Defined.

#[local] Arguments filter_step : simpl never.

Lemma items_from_elem {V} (seen : list string) (d : Py.dict V) kv :
  kv ∈ Py.items_from seen d → kv ∈ d.
Proof.
  revert seen. induction d as [|[k v] d IH]; intros seen; simpl; [done|].
  destruct (decide (k ∈ seen)).
  - intros ?%IH. by right.
  - intros [->|?%IH]%elem_of_cons; [left | by right].
Qed.

Lemma filter_step_pk_name (tbl : Table) conds key val :
  key ∈ pk_names tbl → filter_step tbl conds (key, val) = Return conds.
Proof.
  intros Hkey. unfold filter_step.
  rewrite (bool_decide_eq_true_2 (key ∈ pk_names tbl) Hkey), orb_true_r. done.
Qed.

Lemma filter_step_reserved (tbl : Table) conds key val :
  key ∈ skip → filter_step tbl conds (key, val) = Return conds.
Proof.
  intros Hkey. unfold filter_step.
  rewrite (bool_decide_eq_true_2 (key ∈ skip) Hkey). done.
Qed.

(** The only exception of the filter loop is the one of its [_like]
    branch. *)
Lemma filter_step_raises (tbl : Table) conds kv e :
  filter_step tbl conds kv = Raise e → e = TypeError.
Proof.
  destruct kv as [key val]. unfold filter_step.
  repeat (match goal with |- context [if ?b then _ else _] => destruct b end);
    congruence.
Qed.

Lemma filter_loop_raises (tbl : Table) kvs conds e :
  filter_loop tbl conds kvs = Raise e → e = TypeError.
Proof.
  revert conds. induction kvs as [|kv kvs IH]; intros conds; simpl; [done|].
  destruct (filter_step tbl conds kv) as [conds'|e'] eqn:Hstep; [apply IH|].
  intros [= <-]. by eapply filter_step_raises.
Qed.

Lemma build_filters_raises (tbl : Table) (args : Py.dict string) e :
  build_filters tbl args = Raise e → e = TypeError.
Proof.
  unfold build_filters. destruct (all_pk_present tbl args); [done|].
  destruct (filter_loop tbl [] (Py.items args)) as [[|cl conds]|e'] eqn:Hloop; try done.
  intros [= <-]. by eapply filter_loop_raises.
Qed.

Lemma filter_loop_without (tbl : Table) kvs conds :
  filter_loop tbl conds
    (List.filter (λ kv, negb (bool_decide (kv.1 ∈ pk_names tbl))) kvs)
  = filter_loop tbl conds kvs.
Proof.
  revert conds. induction kvs as [|[k v] kvs IH]; intros conds; simpl; [done|].
  destruct (decide (k ∈ pk_names tbl)) as [Hk|Hk].
  - rewrite (bool_decide_eq_true_2 _ Hk). simpl.
    rewrite (filter_step_pk_name tbl conds k v Hk). apply IH.
  - rewrite (bool_decide_eq_false_2 _ Hk). simpl.
    destruct (filter_step tbl conds (k, v)); [apply IH | done].
Qed.

Lemma filter_loop_skipped (tbl : Table) kvs conds :
  Forall (λ kv, kv.1 ∈ pk_names tbl ∨ kv.1 ∈ skip) kvs →
  filter_loop tbl conds kvs = Return conds.
Proof.
  induction 1 as [|[k v] kvs [Hk|Hk] _ IH]; simpl; [done| |].
  - by rewrite filter_step_pk_name.
  - by rewrite filter_step_reserved.
Qed.

Lemma all_pk_present_without (tbl : Table) (args : Py.dict string) :
  all_pk_present tbl args = false →
  all_pk_present tbl (without_pk_keys tbl args) = false.
Proof.
  rewrite !all_pk_present_false. intros (col & Hcol & Hmiss).
  exists col. split; [done|]. intros Hin. apply Hmiss.
  apply list_elem_of_fmap in Hin as (kv & -> & Hkv).
  apply list_elem_of_In, filter_In in Hkv as [Hkv _].
  apply list_elem_of_fmap. exists kv. split; [done|]. by apply list_elem_of_In.
Qed.

Lemma build_filters_without_pk_keys (tbl : Table) (args : Py.dict string) :
  all_pk_present tbl args = false →
  build_filters tbl args = build_filters tbl (without_pk_keys tbl args).
Proof.
  intros Hmiss. unfold build_filters.
  rewrite Hmiss, (all_pk_present_without _ _ Hmiss).
  unfold without_pk_keys.
  pose proof (items_filter (λ k, negb (bool_decide (k ∈ pk_names tbl))) args) as Hitems.
  cbv beta in Hitems. rewrite Hitems.
  by rewrite filter_loop_without.
Qed.

Lemma build_filters_only_skipped (tbl : Table) (args : Py.dict string) :
  all_pk_present tbl args = false →
  (∀ k, k ∈ args.*1 → k ∈ pk_names tbl ∨ k ∈ skip) →
  build_filters tbl args = Return None.
Proof.
  intros Hmiss Hkeys. unfold build_filters. rewrite Hmiss.
  rewrite filter_loop_skipped; [done|].
  apply Forall_forall. intros [k v] Hkv%items_from_elem. apply Hkeys.
  apply list_elem_of_fmap. by exists (k, v).
Qed.

(** C5.  On the general path (some primary-key column is missing from
    the parameters) the loop leaves the clause list as it is at a key
    that is the name of a primary-key column, whatever the key ends
    with, so the result is the one obtained from the parameters without
    those keys; a key column named [id_gte] gives no clause. *)
Theorem build_filters_skips_pk_names (tbl : Table) (args : Py.dict string) :
  all_pk_present tbl args = false →
  (∀ conds key val, key ∈ pk_names tbl → filter_step tbl conds (key, val) = Return conds) ∧
  build_filters tbl args = build_filters tbl (without_pk_keys tbl args) ∧
  ("id_gte" ∈ pk_names tbl →
   ∀ conds val, filter_step tbl conds ("id_gte", val) = Return conds).
Proof.
  intros Hmiss. split; [|split].
  - intros. by apply filter_step_pk_name.
  - by apply build_filters_without_pk_keys.
  - intros. by apply filter_step_pk_name.
Qed.

Lemma build_filters_skips_pk_names_witness :
  filter_step Sample.lecturas [] ("id_gte", "5") = Return [] ∧
  build_filters Sample.lecturas [("id_gte", "5"); ("id_lte", "9")]
  = build_filters Sample.lecturas [("id_lte", "9")].
Proof.
  destruct (build_filters_skips_pk_names Sample.lecturas [("id_gte", "5"); ("id_lte", "9")])
    as (Hstep & Hsame & _); [reflexivity|].
  split; [apply Hstep; compute_done | exact Hsame].
Defined.

(** The key [id_gte] alone: no clause when it names a key column, a
    lower bound on [id] when it does not. *)
Example id_gte_as_key_column :
  build_filters Sample.lecturas [("id_gte", "5")] = Return None
  ∧ build_filters Sample.plazas [("nombre_gte", "M")] = Return (Some (And [Ge "nombre" "M"])).
Proof. split; reflexivity. Qed.

(** ** Ordering *)

(** C1, as the code has it.  When [order_by] is a non-empty column name
    the result is a sort on that column, descending exactly when
    [order_dir] is absent or is [desc] up to letter case, ascending for
    every other value of [order_dir]. *)
Theorem parse_order_direction (tbl : Table) (args : Py.dict string) (ob : string) :
  Py.get args "order_by" = Some ob →
  ob ≠ "" →
  ob ∈ column_names tbl →
  (Py.get args "order_dir" = None → parse_order tbl args = Some (Desc ob)) ∧
  (∀ dir, Py.get args "order_dir" = Some dir → Py.lower dir = "desc" →
     parse_order tbl args = Some (Desc ob)) ∧
  (∀ dir, Py.get args "order_dir" = Some dir → Py.lower dir ≠ "desc" →
     parse_order tbl args = Some (Asc ob)).
Proof.
  intros Hob Hne Hcol. unfold parse_order. rewrite Hob.
  apply String.eqb_neq in Hne. rewrite Hne. unfold has_column.
  rewrite (bool_decide_eq_true_2 _ Hcol). simpl.
  repeat split.
  - by intros ->.
  - intros dir -> Hdir. simpl. by rewrite Hdir.
  - intros dir -> Hdir%String.eqb_neq. simpl. by rewrite Hdir.
Qed.

Lemma parse_order_direction_witness :
  parse_order Sample.plazas [("order_by", "nombre"); ("order_dir", "DeSc")]
  = Some (Desc "nombre").
Proof.
  destruct (parse_order_direction Sample.plazas
              [("order_by", "nombre"); ("order_dir", "DeSc")] "nombre")
    as (_ & Hdesc & _); [reflexivity | discriminate | compute_done |].
  apply (Hdesc "DeSc"); reflexivity.
Defined.

(** C1, as the specification words it, fails: [order_dir=up] is not
    [asc] in any letter case, and the sort is ascending. *)
Lemma parse_order_other_value_ascending :
  Py.get [("order_by", "nombre"); ("order_dir", "up")] "order_by" = Some "nombre" ∧
  "nombre" ∈ column_names Sample.plazas ∧
  Py.get [("order_by", "nombre"); ("order_dir", "up")] "order_dir" = Some "up" ∧
  Py.lower "up" ≠ "asc" ∧
  parse_order Sample.plazas [("order_by", "nombre"); ("order_dir", "up")]
  ≠ Some (Desc "nombre") ∧
  parse_order Sample.plazas [("order_by", "nombre"); ("order_dir", "up")]
  = Some (Asc "nombre").
Proof. repeat split; try discriminate; try reflexivity. compute_done. Qed.

(** ** Pagination *)

(** X28.  What [cast_limit] computes.  An absent limit is the default,
    clamped; a limit that [int()] accepts is clamped; clamping is
    [max(1, min(v, maximum))], which lies between 1 and the maximum when
    the maximum is at least 1 and is the maximum itself for a value
    above it; a limit that [int()] rejects gives the default as it is,
    so the result is within the range for every limit as soon as the
    default is. *)
Theorem cast_limit_cases (limit : option string) (default max_limit : Z) :
  (limit = None → cast_limit limit default max_limit = Z.max 1 (Z.min default max_limit)) ∧
  (∀ s v, limit = Some s → Py.int s = Some v →
     cast_limit limit default max_limit = Z.max 1 (Z.min v max_limit)) ∧
  (∀ s, limit = Some s → Py.int s = None → cast_limit limit default max_limit = default) ∧
  (∀ s v, limit = Some s → Py.int s = Some v → 1 ≤ max_limit → max_limit < v →
     cast_limit limit default max_limit = max_limit) ∧
  (1 ≤ max_limit → (limit = None ∨ ∃ s, limit = Some s ∧ is_Some (Py.int s)) →
     1 ≤ cast_limit limit default max_limit ≤ max_limit) ∧
  (1 ≤ default ≤ max_limit → 1 ≤ cast_limit limit default max_limit ≤ max_limit).
Proof.
  unfold cast_limit. split; [|split; [|split; [|split; [|split]]]].
  - by intros ->.
  - by intros s v -> ->.
  - by intros s -> ->.
  - intros s v -> -> ? ?. lia.
  - intros ? [->|(s & -> & v & ->)]; lia.
  - intros ?. destruct limit as [s|]; [destruct (Py.int s)|]; lia.
Qed.

Lemma cast_limit_cases_witness :
  cast_limit (Some "5000") 100 1000 = 1000 ∧
  1 ≤ cast_limit (Some "5000") 100 1000 ≤ 1000 ∧
  cast_limit (Some "muchos") 100 1000 = 100.
Proof.
  destruct (cast_limit_cases (Some "5000") 100 1000) as (_ & _ & _ & Hsat & Hrange & _).
  destruct (cast_limit_cases (Some "muchos") 100 1000) as (_ & _ & Hdef & _).
  split; [|split].
  - apply (Hsat "5000" 5000); [reflexivity | reflexivity | lia | lia].
  - apply Hrange; [lia|]. right. exists "5000". split; [reflexivity | by exists 5000].
  - apply (Hdef "muchos"); reflexivity.
Defined.

(** C3.  The fallback skips the clamp: with a default above the
    maximum a limit that does not parse gives the default, outside the
    range the claim promises, while an absent limit, for which the same
    default is used, gives the maximum. *)
Lemma cast_limit_fallback_unclamped :
  Py.int "abc" = None ∧
  cast_limit (Some "abc") 5000 1000 = 5000 ∧
  ¬ (1 ≤ cast_limit (Some "abc") 5000 1000 ≤ 1000) ∧
  cast_limit None 5000 1000 = 1000.
Proof. repeat split. vm_compute. intros [_ H]. by apply H. Qed.

Example cast_limit_saturates : cast_limit (Some " 5_000 ") 100 1000 = 1000.
Proof. reflexivity. Qed.

Example cast_limit_not_numeric : cast_limit (Some "10.5") 100 1000 = 100.
Proof. reflexivity. Qed.

(** ** The handler *)

Lemma filter_none {A} (f : A → bool) (l : list A) :
  Forall (λ x, f x = false) l → List.filter f l = [].
Proof. induction 1 as [|x l Hx _ IH]; simpl; [done|]. by rewrite Hx. Qed.

Lemma filter_all {A} (f : A → bool) (l : list A) :
  Forall (λ x, f x = true) l → List.filter f l = l.
Proof. induction 1 as [|x l Hx _ IH]; simpl; [done|]. by rewrite Hx, IH. Qed.

Section HandlerFacts.

Context (eng : Engine) (cfg : Config) (tname : string) (tbl : Table).
Implicit Types (req : Request) (w : world).

Lemma handler_GET req :
  method req = "GET" →
  handler eng cfg tname tbl req
  = if all_pk_present tbl (args req) then get_one eng tbl req else get_list eng cfg tbl req.
Proof. intros Hm. unfold handler. by rewrite Hm. Qed.

Lemma handler_POST req :
  method req = "POST" → handler eng cfg tname tbl req = do_post eng cfg tname tbl req.
Proof. intros Hm. unfold handler. by rewrite Hm. Qed.

Lemma handler_PUT req :
  method req = "PUT" ∨ method req = "PATCH" →
  handler eng cfg tname tbl req = do_put eng cfg tname tbl req.
Proof. intros [Hm|Hm]; unfold handler; by rewrite Hm. Qed.

Lemma handler_DELETE req :
  method req = "DELETE" → handler eng cfg tname tbl req = do_delete eng cfg tname tbl req.
Proof. intros Hm. unfold handler. by rewrite Hm. Qed.

(** A payload none of whose fields is a column is filtered to nothing. *)
Lemma known_columns_none (o : Py.dict json) :
  Forall (λ kv, kv.1 ∉ column_names tbl) o →
  List.filter (λ kv, has_column tbl kv.1) (Py.items o) = [].
Proof.
  intros Hall. apply filter_none, Forall_forall.
  intros kv Hkv%items_from_elem. rewrite Forall_forall in Hall.
  apply bool_decide_eq_false. by apply Hall.
Qed.

Lemma payload_known_columns_empty (j : json) w :
  truthy j = false ∨ (∃ o, j = JObj o ∧ Forall (λ kv, kv.1 ∉ column_names tbl) o) →
  payload_known_columns tbl (or_empty j) w = (Return [], w).
Proof.
  intros [Hfalsy|(o & -> & Hall)]; unfold payload_known_columns.
  - unfold or_empty at 2. rewrite Hfalsy. done.
  - destruct o as [|kv o]; [done|].
    change (or_empty (or_empty (JObj (kv :: o)))) with (JObj (kv :: o)).
    cbv beta iota. by rewrite known_columns_none.
Qed.

End HandlerFacts.

(** C7.  On a table of the read-only set, POST, PUT, PATCH and DELETE
    are answered 405 Method Not Allowed whatever the parameters and the
    body are; the rows and the list of executed statements are left as
    they were. *)
Theorem read_only_rejects_writes (eng : Engine) (cfg : Config) (tname : string)
    (tbl : Table) (req : Request) (w : world) :
  tname ∈ READ_ONLY cfg →
  method req ∈ ["POST"; "PUT"; "PATCH"; "DELETE"] →
  serve eng cfg tname tbl req w
  = ({| status_code := 405;
        payload := HttpError "Method Not Allowed" (read_only tname) 405 |}, w).
Proof.
  intros Hro Hm. unfold serve.
  assert (Hrun : handler eng cfg tname tbl req w
                 = (Raise (HTTPException 405 (read_only tname)), w)).
  { rewrite !elem_of_cons, elem_of_nil in Hm.
    destruct Hm as [Hm|[Hm|[Hm|[Hm|[]]]]].
    - rewrite handler_POST by done. unfold do_post.
      by rewrite (bool_decide_eq_true_2 _ Hro).
    - rewrite handler_PUT by auto. unfold do_put.
      by rewrite (bool_decide_eq_true_2 _ Hro).
    - rewrite handler_PUT by auto. unfold do_put.
      by rewrite (bool_decide_eq_true_2 _ Hro).
    - rewrite handler_DELETE by done. unfold do_delete.
      by rewrite (bool_decide_eq_true_2 _ Hro). }
  by rewrite Hrun.
Qed.

Lemma read_only_rejects_writes_witness :
  serve Sample.engine Sample.config "eventos" Sample.eventos
    (Sample.POST (JObj [("detalle", JStr "barrera abierta")])) Sample.stored
  = ({| status_code := 405;
        payload := HttpError "Method Not Allowed" (read_only "eventos") 405 |},
     Sample.stored).
Proof. apply read_only_rejects_writes; compute_done. Defined.

(** C6, as the code has it.  On a table that is not read-only, a POST
    whose body is empty, or is an object none of whose fields is a
    column, is answered 400 Bad Request, and no statement is executed. *)
Theorem post_unknown_fields (eng : Engine) (cfg : Config) (tname : string)
    (tbl : Table) (req : Request) (w : world) :
  tname ∉ READ_ONLY cfg →
  method req = "POST" →
  truthy (get_json req) = false ∨
    (∃ o, get_json req = JObj o ∧ Forall (λ kv, kv.1 ∉ column_names tbl) o) →
  serve eng cfg tname tbl req w
  = ({| status_code := 400;
        payload := HttpError "Bad Request" "Empty payload or unknown fields" 400 |}, w).
Proof.
  intros Hrw Hm Hbody. unfold serve.
  rewrite handler_POST by done. unfold do_post.
  rewrite (bool_decide_eq_false_2 _ Hrw).
  unfold mbind, M_bind. by rewrite payload_known_columns_empty.
Qed.

Lemma post_unknown_fields_witness :
  serve Sample.engine Sample.config "plazas" Sample.plazas
    (Sample.POST (JObj [("color", JStr "rojo"); ("altura", JInt 3)])) Sample.stored
  = ({| status_code := 400;
        payload := HttpError "Bad Request" "Empty payload or unknown fields" 400 |},
     Sample.stored).
Proof.
  apply post_unknown_fields.
  - compute_done.
  - reflexivity.
  - right. eexists. split; [reflexivity | compute_done].
Defined.

(** C6, as the specification words it, fails on a read-only table:
    the same body is answered 405, not 400. *)
Lemma post_unknown_fields_read_only :
  Forall (λ kv, kv.1 ∉ column_names Sample.eventos) [("color", JStr "rojo")] ∧
  status_code (serve Sample.engine Sample.config "eventos" Sample.eventos
                 (Sample.POST (JObj [("color", JStr "rojo")])) Sample.stored).1 = 405 ∧
  status_code (serve Sample.engine Sample.config "eventos" Sample.eventos
                 (Sample.POST (JObj [("color", JStr "rojo")])) Sample.stored).1 ≠ 400.
Proof. split; [compute_done | split; [reflexivity | discriminate]]. Qed.

(** C10.  On the list path of GET, an [offset] that [int()] rejects
    makes the handler raise [ValueError]; the request is answered 500
    by the catch-all error handler and no statement is executed, while
    the same string given as [limit] falls back to the default. *)
Theorem get_list_bad_offset (eng : Engine) (cfg : Config) (tname : string)
    (tbl : Table) (req : Request) (w : world) (s : string) :
  method req = "GET" →
  all_pk_present tbl (args req) = false →
  Py.get (args req) "offset" = Some s →
  Py.int s = None →
  handler eng cfg tname tbl req w = (Raise (ValueError s), w) ∧
  serve eng cfg tname tbl req w
  = ({| status_code := 500; payload := InternalError (ValueError s) |}, w) ∧
  cast_limit (Some s) (DEFAULT_LIMIT cfg) (MAX_LIMIT cfg) = DEFAULT_LIMIT cfg.
Proof.
  intros Hm Hlist Hoff Hint.
  assert (Hrun : handler eng cfg tname tbl req w = (Raise (ValueError s), w)).
  { rewrite handler_GET, Hlist by done. unfold get_list, parse_offset.
    rewrite Hoff, Hint. done. }
  split; [done|]. split.
  - unfold serve. by rewrite Hrun.
  - unfold cast_limit. by rewrite Hint.
Qed.

Lemma get_list_bad_offset_witness :
  handler Sample.engine Sample.config "plazas" Sample.plazas
    (Sample.GET [("ruta", "RN9"); ("offset", "diez")]) Sample.stored
  = (Raise (ValueError "diez"), Sample.stored) ∧
  serve Sample.engine Sample.config "plazas" Sample.plazas
    (Sample.GET [("ruta", "RN9"); ("offset", "diez")]) Sample.stored
  = ({| status_code := 500; payload := InternalError (ValueError "diez") |}, Sample.stored) ∧
  cast_limit (Some "diez") (DEFAULT_LIMIT Sample.config) (MAX_LIMIT Sample.config)
  = DEFAULT_LIMIT Sample.config.
Proof. apply get_list_bad_offset; reflexivity. Defined.

(** C9.  On a table whose primary key has no column, every GET takes
    the single-row path: the one statement sent is the unfiltered
    select limited to one row, the answer is never a listing, and when
    the engine runs the statement the answer is 404 on an empty table
    and otherwise the first row, as a flat object (500 if [jsonify]
    cannot serialise a value of that row). *)
Theorem get_without_primary_key (eng : Engine) (cfg : Config) (tname : string)
    (tbl : Table) (req : Request) (w : world) :
  method req = "GET" →
  pk_columns tbl = [] →
  let stmt := Select (Some (And [])) None 1 None in
  let out := serve eng cfg tname tbl req w in
  out.2 = {| rows := rows w; log := log w ++ [stmt] |} ∧
  (∀ data limit offset, payload out.1 ≠ Listing data limit offset) ∧
  (accepts eng stmt (rows w) = true →
     (rows w = [] →
        out.1 = {| status_code := 404; payload := HttpError "Not Found" "Not found" 404 |}) ∧
     (∀ r rest, rows w = r :: rest → r ≠ [] →
        out.1 = if jsonable eng r
                then {| status_code := 200; payload := Record_ r |}
                else {| status_code := 500; payload := InternalError TypeError |})).
Proof.
  intros Hm Hpk stmt out. subst out. unfold serve.
  rewrite handler_GET by done.
  unfold all_pk_present, get_one, pk_lookup. rewrite Hpk. simpl.
  fold stmt. unfold mbind, M_bind, connect, execute.
  destruct (accepts eng stmt (rows w)) eqn:Hacc.
  - simpl. rewrite filter_all by (apply Forall_forall; done).
    unfold page. simpl. change (Pos.to_nat 1) with 1%nat.
    destruct (rows w) as [|r rest] eqn:Hrows; simpl.
    + repeat split; try done.
    + destruct r as [|kv r]; simpl.
      * repeat split; try done. intros r' rest' [= <- <-] Hne. done.
      * unfold jsonify. simpl. rewrite andb_true_r.
        destruct (jsonable eng (kv :: r)) eqn:Hjson; simpl.
        -- repeat split; try done. intros r' rest' [= <- <-] _. by rewrite Hjson.
        -- repeat split; try done. intros r' rest' [= <- <-] _. by rewrite Hjson.
  - simpl. repeat split; done.
Qed.

Lemma get_without_primary_key_witness :
  (serve Sample.engine Sample.config "eventos" Sample.eventos
     (Sample.GET [("detalle", "cierre"); ("limit", "1")]) Sample.events).1
  = {| status_code := 200;
       payload := Record_ [("momento", JStr "2024-05-01T08:00:00");
                           ("detalle", JStr "apertura")] |}.
Proof.
  destruct (get_without_primary_key Sample.engine Sample.config "eventos" Sample.eventos
              (Sample.GET [("detalle", "cierre"); ("limit", "1")]) Sample.events)
    as (_ & _ & Hres); [reflexivity | reflexivity |].
  eapply (proj2 (Hres eq_refl)); [reflexivity | discriminate].
Defined.

(** What the list branch does once the offset and the filter are there. *)
Lemma get_list_run (eng : Engine) (cfg : Config) (tbl : Table) (req : Request) (w : world)
    (off : Z) (where_ : option predicate) :
  (Py.get (args req) "offset" = None ∧ off = 0 ∨
   ∃ s, Py.get (args req) "offset" = Some s ∧ Py.int s = Some off) →
  build_filters tbl (args req) = Return where_ →
  let limit := cast_limit (Py.get (args req) "limit") (DEFAULT_LIMIT cfg) (MAX_LIMIT cfg) in
  let stmt := Select where_ (parse_order tbl (args req)) limit (Some off) in
  get_list eng cfg tbl req w
  = (if accepts eng stmt (rows w) then
       let data := fetched (run eng stmt (rows w)).1 in
       if forallb (jsonable eng) data then Return (Listing data limit off, 200)
       else Raise TypeError
     else Raise (DBAPIError stmt),
     {| rows := rows w; log := log w ++ [stmt] |}).
Proof.
  intros Hoff Hwhere limit stmt. unfold get_list, parse_offset.
  assert (Hparse : match Py.get (args req) "offset" with
                   | Some s => match Py.int s with
                               | Some v => mret v
                               | None => raise (ValueError s)
                               end
                   | None => mret 0
                   end = (mret off : M Z)).
  { destruct Hoff as [[-> ->]|(s & -> & ->)]; done. }
  rewrite Hparse, Hwhere. fold limit. subst stmt.
  unfold mbind, M_bind, mret, M_ret, lift, connect, execute, all.
  destruct (accepts eng _ (rows w)); [|done].
  simpl. unfold jsonify, rows_of.
  destruct (forallb (jsonable eng) _); done.
Qed.

(** C2, as the code has it.  When some primary-key column is missing
    from the parameters of a GET, the handler runs the list branch: the
    answer is never a single row nor 404; the filter is the one built
    from the parameters without the keys that name primary-key columns,
    none at all with nothing but such keys; and once the offset is
    read and the filter built, the statement sent is the list query
    with that filter, the ordering, the limit and the offset, answered
    by a listing of the rows the engine returns for it. *)
Theorem get_partial_key_lists (eng : Engine) (cfg : Config) (tname : string)
    (tbl : Table) (req : Request) (w : world) :
  method req = "GET" →
  (∃ col, col ∈ pk_columns tbl ∧ name col ∉ (args req).*1) →
  let out := serve eng cfg tname tbl req w in
  let limit := cast_limit (Py.get (args req) "limit") (DEFAULT_LIMIT cfg) (MAX_LIMIT cfg) in
  let order := parse_order tbl (args req) in
  (∀ r, payload out.1 ≠ Record_ r) ∧
  status_code out.1 ≠ 404 ∧
  build_filters tbl (args req) = build_filters tbl (without_pk_keys tbl (args req)) ∧
  ((∀ k, k ∈ (args req).*1 → k ∈ pk_names tbl) →
     build_filters tbl (args req) = Return None) ∧
  (∀ off where_,
     (Py.get (args req) "offset" = None ∧ off = 0 ∨
      ∃ s, Py.get (args req) "offset" = Some s ∧ Py.int s = Some off) →
     build_filters tbl (without_pk_keys tbl (args req)) = Return where_ →
     let stmt := Select where_ order limit (Some off) in
     out.2 = {| rows := rows w; log := log w ++ [stmt] |} ∧
     (accepts eng stmt (rows w) = true →
        let data := fetched (run eng stmt (rows w)).1 in
        out.1 = if forallb (jsonable eng) data
                then {| status_code := 200; payload := Listing data limit off |}
                else {| status_code := 500; payload := InternalError TypeError |})) ∧
  ((∀ k, k ∈ (args req).*1 → k ∈ pk_names tbl) → "offset" ∉ pk_names tbl →
     out.2 = {| rows := rows w; log := log w ++ [Select None order limit (Some 0)] |}).
Proof.
  intros Hm Hmiss%all_pk_present_false out limit order.
  assert (Hpath : handler eng cfg tname tbl req = get_list eng cfg tbl req)
    by (by rewrite handler_GET, Hmiss).
  assert (Hwhere : build_filters tbl (args req)
                   = build_filters tbl (without_pk_keys tbl (args req)))
    by (by apply build_filters_without_pk_keys).
  assert (Hnone : (∀ k, k ∈ (args req).*1 → k ∈ pk_names tbl) →
                  build_filters tbl (args req) = Return None).
  { intros Hkeys. apply build_filters_only_skipped; [done|]. auto. }
  assert (Hrun : ∀ off where_,
     (Py.get (args req) "offset" = None ∧ off = 0 ∨
      ∃ s, Py.get (args req) "offset" = Some s ∧ Py.int s = Some off) →
     build_filters tbl (args req) = Return where_ →
     let stmt := Select where_ order limit (Some off) in
     out.2 = {| rows := rows w; log := log w ++ [stmt] |} ∧
     (accepts eng stmt (rows w) = true →
        let data := fetched (run eng stmt (rows w)).1 in
        out.1 = if forallb (jsonable eng) data
                then {| status_code := 200; payload := Listing data limit off |}
                else {| status_code := 500; payload := InternalError TypeError |})).
  { intros off where_ Hoff Hbuilt stmt. subst out. unfold serve.
    rewrite Hpath, (get_list_run eng cfg tbl req w off where_ Hoff Hbuilt).
    fold limit order stmt.
    destruct (accepts eng stmt (rows w)); cbv zeta.
    - destruct (forallb (jsonable eng) _); split; done.
    - split; done. }
  split; [|split; [|split; [done|split; [done|split]]]].
  - subst out. unfold serve. rewrite Hpath. unfold get_list, parse_offset.
    destruct (Py.get (args req) "offset") as [s|]; [destruct (Py.int s) as [off|]|];
      unfold mbind, M_bind, mret, M_ret, lift, connect, execute, all, jsonify, rows_of;
      try done;
      (destruct (build_filters tbl (args req)) as [where_|e] eqn:Hbuilt;
       [|by rewrite (build_filters_raises _ _ _ Hbuilt)]);
      (destruct (accepts eng _ (rows w)); [|done]); simpl;
      by destruct (forallb (jsonable eng) _).
  - subst out. unfold serve. rewrite Hpath. unfold get_list, parse_offset.
    destruct (Py.get (args req) "offset") as [s|]; [destruct (Py.int s) as [off|]|];
      unfold mbind, M_bind, mret, M_ret, lift, connect, execute, all, jsonify, rows_of;
      try done;
      (destruct (build_filters tbl (args req)) as [where_|e] eqn:Hbuilt;
       [|by rewrite (build_filters_raises _ _ _ Hbuilt)]);
      (destruct (accepts eng _ (rows w)); [|done]); simpl;
      by destruct (forallb (jsonable eng) _).
  - intros off where_ Hoff Hbuilt. apply Hrun; [done|]. by rewrite Hwhere.
  - intros Hkeys Hoffset.
    apply (Hrun 0 None); [|by apply Hnone].
    left. split; [|done].
    destruct (Py.get (args req) "offset") as [s|] eqn:Hget; [|done].
    apply get_Some_key, Hkeys in Hget. done.
Qed.

Lemma get_partial_key_lists_witness :
  serve Sample.engine Sample.config "tarifas" Sample.tarifas
    (Sample.GET [("plaza_id", "1")]) Sample.tariffs
  = ({| status_code := 200; payload := Listing (rows Sample.tariffs) 100 0 |},
     {| rows := rows Sample.tariffs; log := [Select None None 100 (Some 0)] |}) ∧
  build_filters Sample.tarifas [("plaza_id", "1")] = Return None.
Proof.
  destruct (get_partial_key_lists Sample.engine Sample.config "tarifas" Sample.tarifas
              (Sample.GET [("plaza_id", "1")]) Sample.tariffs)
    as (_ & _ & _ & Hnone & Hsent & _).
  - reflexivity.
  - exists (Sample.col "categoria" Text). split; compute_done.
  - destruct (Hsent 0 None) as [Hworld Hanswer]; [by left | reflexivity |].
    split; [|apply Hnone; intros k ->%list_elem_of_singleton; compute_done].
    rewrite (surjective_pairing (serve _ _ _ _ _ _)), Hworld, (Hanswer eq_refl).
    reflexivity.
Defined.

(** C2, as the specification words it, fails: with [plaza_id] alone,
    a column of the table, the list query has no filter and the listing
    holds the rows of every plaza. *)
Lemma get_partial_key_unfiltered :
  "plaza_id" ∈ column_names Sample.tarifas ∧
  build_filters Sample.tarifas [("plaza_id", "1")]
  ≠ Return (Some (And [Eq "plaza_id" (Some "1")])) ∧
  serve Sample.engine Sample.config "tarifas" Sample.tarifas
    (Sample.GET [("plaza_id", "1")]) Sample.tariffs
  = ({| status_code := 200; payload := Listing (rows Sample.tariffs) 100 0 |},
     {| rows := rows Sample.tariffs; log := [Select None None 100 (Some 0)] |}).
Proof. split; [compute_done | split; [discriminate | reflexivity]]. Qed.

(** ** Deleting a key that is not there *)

Lemma forallb_same_elements {A} (f : A → bool) (l1 l2 : list A) :
  (∀ x, x ∈ l1 ↔ x ∈ l2) → forallb f l1 = forallb f l2.
Proof.
  intros Hsame. apply eq_true_iff_eq. rewrite !forallb_forall.
  split; intros H x Hx%list_elem_of_In; apply H, list_elem_of_In, Hsame, Hx.
Qed.

Lemma require_pk_loop_present (cols : list Column) (args data : Py.dict string) (w : world) :
  Forall (λ col, name col ∈ args.*1) cols →
  ∃ pkd, require_pk_loop cols args data w = (Return pkd, w) ∧
    ∀ k, Py.get pkd k = if decide (k ∈ name <$> cols) then Py.get args k else Py.get data k.
Proof.
  intros Hall. revert data.
  induction Hall as [|col cols Hcol _ IH]; intros data; simpl.
  - exists data. split; [done|]. intros k. destruct (decide (k ∈ [])) as [[]%elem_of_nil|]. done.
  - destruct (get_is_Some _ _ Hcol) as [v Hv]. rewrite Hv.
    destruct (IH (Py.set data (name col) v)) as (pkd & -> & Hget).
    exists pkd. split; [done|]. intros k. rewrite Hget, get_set.
    destruct (decide (k = name col)) as [->|Hne].
    + rewrite (decide_True (P := name col ∈ name col :: _)) by (by left).
      by destruct (decide (name col ∈ name <$> cols)).
    + destruct (decide (k ∈ name <$> cols)) as [Hin|Hout].
      * by rewrite decide_True by (by right).
      * by rewrite decide_False by (by intros [?|?]%elem_of_cons).
Qed.

Lemma pk_equals_same_clauses (tbl : Table) (args pkd : Py.dict string) :
  Forall (λ col, name col ∈ args.*1) (pk_columns tbl) →
  (∀ k, Py.get pkd k = if decide (k ∈ pk_names tbl) then Py.get args k else None) →
  ∀ cl, cl ∈ clauses (pk_equals pkd) ↔ cl ∈ pk_lookup tbl args.
Proof.
  intros Hall Hget cl. unfold pk_equals, pk_lookup, clauses.
  rewrite !list_elem_of_fmap. rewrite Forall_forall in Hall. split.
  - intros ([k v] & -> & Hkv%elem_items). rewrite Hget in Hkv. simpl.
    destruct (decide (k ∈ pk_names tbl)) as [Hk|]; [|done].
    apply list_elem_of_fmap in Hk as (col & -> & Hcol).
    exists col. by rewrite Hkv.
  - intros (col & -> & Hcol).
    destruct (get_is_Some _ _ (Hall col Hcol)) as [v Hv].
    exists (name col, v). rewrite Hv. split; [done|].
    apply elem_items. rewrite Hget.
    rewrite decide_True; [done|]. by apply list_elem_of_fmap_2.
Qed.



Example delete_present_key :
  serve Sample.engine Sample.config "plazas" Sample.plazas
    (Sample.DELETE [("id", "2")]) Sample.stored
  = ({| status_code := 200; payload := Deleted |},
     {| rows := [[("id", JStr "1"); ("nombre", JStr "Norte"); ("ruta", JStr "RN9")]];
        log := [Delete (And [Eq "id" (Some "2")]) ["id"]] |}).
Proof. reflexivity. Qed.

(** Without a primary key the DELETE has no RETURNING clause: it runs
    on every row, fetching from its result raises, and the transaction
    is rolled back. *)
Example delete_without_primary_key :
  serve Sample.engine Sample.config "bitacora" Sample.eventos
    (Sample.DELETE []) Sample.events
  = ({| status_code := 500; payload := InternalError ResourceClosedError |},
     {| rows := rows Sample.events; log := [Delete (And []) []] |}).
Proof. reflexivity. Qed.

(** * More of the module

    What the remaining branches of the handler, the filter loop, the
    start-up code and the API description do. *)

(** ** The filter loop *)

Lemma length_append (s t : string) :
  String.length (s +:+ t) = (String.length s + String.length t)%nat.
Proof. induction s as [|a s IH]; simpl; [done|]. by rewrite IH. Qed.

Lemma substring_all (s : string) : substring 0 (String.length s) s = s.
Proof. induction s as [|a s IH]; simpl; [done|]. by rewrite IH. Qed.

Lemma substring_skip (s t : string) (m : nat) :
  substring (String.length s) m (s +:+ t) = substring 0 m t.
Proof. induction s as [|a s IH]; simpl; [done|]. apply IH. Qed.

Lemma substring_keep (s t : string) :
  substring 0 (String.length s) (s +:+ t) = s.
Proof. induction s as [|a s IH]; simpl; [by destruct t|]. by rewrite IH. Qed.

Lemma endswith_append (s suffix : string) : Py.endswith (s +:+ suffix) suffix = true.
Proof.
  unfold Py.endswith. rewrite length_append.
  replace (String.length s + String.length suffix - String.length suffix)%nat
    with (String.length s) by lia.
  rewrite substring_skip, substring_all, String.eqb_refl, andb_true_r.
  apply Nat.leb_le. lia.
Qed.

Lemma endswith_append_other (s suffix other : string) :
  String.length other = String.length suffix → other ≠ suffix →
  Py.endswith (s +:+ suffix) other = false.
Proof.
  intros Hlen Hne. unfold Py.endswith. rewrite length_append, Hlen.
  replace (String.length s + String.length suffix - String.length suffix)%nat
    with (String.length s) by lia.
  rewrite substring_skip, substring_all.
  apply andb_false_iff. right. apply String.eqb_neq. congruence.
Qed.

Lemma append_assoc (s t u : string) : (s +:+ t) +:+ u = s +:+ (t +:+ u).
Proof.
  induction s as [|a s IH]; [done|].
  change (String a ((s +:+ t) +:+ u) = String a (s +:+ (t +:+ u))). by rewrite IH.
Qed.

Lemma endswith_like_other (col other : string) :
  String.length other = 4%nat → other ≠ "like" →
  Py.endswith (col +:+ "_like") other = false.
Proof.
  intros Hlen Hne. change "_like" with ("_" +:+ "like").
  rewrite <- append_assoc. by apply endswith_append_other.
Qed.

Lemma drop_last_append (s suffix : string) :
  Py.drop_last (String.length suffix) (s +:+ suffix) = s.
Proof.
  unfold Py.drop_last. rewrite length_append.
  replace (String.length s + String.length suffix - String.length suffix)%nat
    with (String.length s) by lia.
  apply substring_keep.
Qed.

(** The outcome of one iteration: the clauses as they were, one more
    clause, or the exception of the [_like] branch. *)
Lemma filter_step_cases (tbl : Table) conds key val :
  filter_step tbl conds (key, val) = Return conds ∨
  (∃ cl, filter_step tbl conds (key, val) = Return (conds ++ [cl]) ∧
         (key ∉ skip) ∧ (key ∉ pk_names tbl) ∧
         clause_column cl ∈ column_names tbl ∧
         (cl = Eq key (Some val) ∧ has_suffix key = false ∨
          has_suffix key = true ∧
          (cl = Ge (clause_column cl) val ∨ cl = Le (clause_column cl) val))) ∨
  filter_step tbl conds (key, val) = Raise TypeError ∧ like_on_column tbl key = true.
Proof.
  unfold filter_step, has_suffix, like_on_column.
  destruct (decide (key ∈ skip)) as [Hs|Hs];
    [rewrite (bool_decide_eq_true_2 _ Hs); by left|].
  rewrite (bool_decide_eq_false_2 _ Hs).
  destruct (decide (key ∈ pk_names tbl)) as [Hp|Hp];
    [rewrite (bool_decide_eq_true_2 _ Hp); by left|].
  rewrite (bool_decide_eq_false_2 _ Hp). cbn [orb negb andb].
  assert (Hcol : ∀ col, has_column tbl col = true → col ∈ column_names tbl)
    by (intros col; apply bool_decide_eq_true).
  destruct (Py.endswith key "_gte") eqn:Hg.
  { destruct (has_column tbl _) eqn:Hc; [|by left]. right. left. eexists. split; [done|].
    repeat split; try done; [by apply Hcol | right; split; [done | by left]]. }
  destruct (Py.endswith key "_lte") eqn:Hl.
  { destruct (has_column tbl _) eqn:Hc; [|by left]. right. left. eexists. split; [done|].
    repeat split; try done; [by apply Hcol | right; split; [done | by right]]. }
  destruct (Py.endswith key "_like") eqn:Hk.
  { destruct (has_column tbl _) eqn:Hc; [|by left]. right. right. done. }
  destruct (has_column tbl key) eqn:Hc; [|by left]. right. left. eexists. split; [done|].
  repeat split; try done; [by apply Hcol | by left].
Qed.

Lemma filter_step_like (tbl : Table) conds key val :
  like_on_column tbl key = true → filter_step tbl conds (key, val) = Raise TypeError.
Proof.
  unfold like_on_column, filter_step.
  intros [[[[[Hs Hp]%andb_true_iff Hg]%andb_true_iff Hl]%andb_true_iff Hk]%andb_true_iff
            Hc]%andb_true_iff.
  apply negb_true_iff in Hs, Hp, Hg, Hl. by rewrite Hs, Hp, Hg, Hl, Hk, Hc.
Qed.

Lemma like_on_column_suffix (tbl : Table) (col : string) :
  col ∈ column_names tbl → (col +:+ "_like") ∉ pk_names tbl →
  like_on_column tbl (col +:+ "_like") = true.
Proof.
  intros Hcol Hpk. unfold like_on_column.
  assert (Hskip : (col +:+ "_like") ∉ skip).
  { intros Hin. assert (Hsuf : has_suffix (col +:+ "_like") = true).
    { unfold has_suffix. by rewrite (endswith_append col "_like"), orb_true_r. }
    revert Hin Hsuf. unfold skip. rewrite !elem_of_cons, elem_of_nil.
    intros [->|[->|[->|[->|[]]]]]; discriminate. }
  rewrite (bool_decide_eq_false_2 _ Hskip), (bool_decide_eq_false_2 _ Hpk).
  rewrite (endswith_like_other col "_gte"), (endswith_like_other col "_lte") by done.
  rewrite endswith_append. change 5%nat with (String.length "_like").
  rewrite drop_last_append. simpl. by apply bool_decide_eq_true.
Qed.

Lemma filter_step_not_like (tbl : Table) conds key val :
  like_on_column tbl key = false → ∃ conds', filter_step tbl conds (key, val) = Return conds'.
Proof.
  intros Hno. destruct (filter_step_cases tbl conds key val)
    as [H|[(cl & H & _)|[_ H]]]; [eauto | eauto | congruence].
Qed.

Lemma app_singleton_neq {A} (l : list A) (x : A) : l ≠ l ++ [x].
Proof.
  intros Heq%(f_equal List.length). rewrite length_app in Heq. simpl in Heq. lia.
Qed.

(** The invariant of the loop: a property of every clause a single
    iteration can add holds of every clause collected. *)
Lemma filter_loop_Forall (tbl : Table) (P : clause → Prop) kvs conds conds' :
  Forall P conds →
  (∀ conds key val cl, filter_step tbl conds (key, val) = Return (conds ++ [cl]) → P cl) →
  filter_loop tbl conds kvs = Return conds' →
  Forall P conds'.
Proof.
  intros Hconds Hstep. revert conds Hconds.
  induction kvs as [|[key val] kvs IH]; intros conds Hconds; simpl.
  - by intros [= <-].
  - destruct (filter_step_cases tbl conds key val) as [->|[(cl & Heq & _)|[-> _]]].
    + by apply IH.
    + rewrite Heq. apply IH. apply Forall_app. split; [done|].
      constructor; [|constructor]. by eapply Hstep.
    + done.
Qed.

Lemma build_filters_general (tbl : Table) (args : Py.dict string) (p : predicate) :
  all_pk_present tbl args = false →
  build_filters tbl args = Return (Some p) →
  filter_loop tbl [] (Py.items args) = Return (clauses p) ∧ clauses p ≠ [].
Proof.
  intros Hmiss. unfold build_filters. rewrite Hmiss.
  destruct (filter_loop _ _ _) as [[|cl conds]|e]; [done| |done]. by intros [= <-].
Qed.

Lemma filter_loop_columns (tbl : Table) (kvs : list (string * string)) conds :
  filter_loop tbl [] kvs = Return conds →
  Forall (λ cl, clause_column cl ∈ column_names tbl) conds.
Proof.
  apply filter_loop_Forall; [constructor|].
  intros conds0 key val cl Heq.
  destruct (filter_step_cases tbl conds0 key val)
    as [Hsame|[(cl' & Heq' & _ & _ & Hcol & _)|[Hraise _]]].
  - rewrite Hsame in Heq. injection Heq as Heq. by apply app_singleton_neq in Heq.
  - rewrite Heq' in Heq. injection Heq as Heq. by apply app_inv_head in Heq as [= ->].
  - congruence.
Qed.

(** X1.  On the general path a filter that is returned is never an
    empty conjunction, and every clause of it compares a column of the
    table. *)
Theorem build_filters_known_columns (tbl : Table) (args : Py.dict string) (p : predicate) :
  all_pk_present tbl args = false →
  build_filters tbl args = Return (Some p) →
  clauses p ≠ [] ∧
  Forall (λ cl, clause_column cl ∈ column_names tbl) (clauses p).
Proof.
  intros Hmiss Hp. destruct (build_filters_general _ _ _ Hmiss Hp) as [Hloop Hne].
  split; [done | by eapply filter_loop_columns].
Qed.

Lemma build_filters_known_columns_witness :
  clauses (And [Ge "monto" "50"]) ≠ [] ∧
  Forall (λ cl, clause_column cl ∈ column_names Sample.tarifas)
    (clauses (And [Ge "monto" "50"])).
Proof.
  apply (build_filters_known_columns Sample.tarifas
           [("monto_gte", "50"); ("color", "rojo")]); reflexivity.
Defined.

(** X2.  On the general path a key that ends in [_gte], [_lte] or
    [_like] never gives an equality clause on the column of that name:
    a column whose own name ends so cannot be filtered by equality. *)
Theorem suffix_key_never_equality (tbl : Table) (args : Py.dict string)
    (p : predicate) (key : string) (v : option string) :
  all_pk_present tbl args = false →
  build_filters tbl args = Return (Some p) →
  has_suffix key = true →
  Eq key v ∉ clauses p.
Proof.
  intros Hmiss Hp Hsuf. destruct (build_filters_general _ _ _ Hmiss Hp) as [Hloop _].
  assert (Hall : Forall (λ cl, ∀ k w, cl = Eq k w → has_suffix k = false) (clauses p)).
  { eapply filter_loop_Forall; [constructor| |exact Hloop].
    intros conds k val cl Heq.
    destruct (filter_step_cases tbl conds k val)
      as [Hsame|[(cl' & Heq' & _ & _ & _ & Hshape)|[Hraise _]]].
    - rewrite Hsame in Heq. injection Heq as Heq. by apply app_singleton_neq in Heq.
    - rewrite Heq' in Heq. injection Heq as Heq. apply app_inv_head in Heq as [= ->].
      destruct Hshape as [[-> Hno]|[_ [H|H]]]; intros k' w Hcl.
      + by injection Hcl as <- _.
      + rewrite Hcl in H. discriminate.
      + rewrite Hcl in H. discriminate.
    - congruence. }
  rewrite Forall_forall in Hall. intros Hin.
  specialize (Hall _ Hin key v eq_refl). congruence.
Qed.

Lemma suffix_key_never_equality_witness :
  Eq "id_gte" (Some "5") ∉ clauses (And [Ge "id" "5"]).
Proof.
  apply (suffix_key_never_equality Sample.plazas [("id_gte", "5")]); reflexivity.
Defined.

Lemma reserved_no_suffix (key : string) : key ∈ skip → has_suffix key = false.
Proof.
  unfold skip. rewrite !elem_of_cons, elem_of_nil.
  intros [->|[->|[->|[->|[]]]]]; reflexivity.
Qed.

Lemma has_suffix_gte (col : string) : has_suffix (col +:+ "_gte") = true.
Proof. unfold has_suffix. by rewrite endswith_append. Qed.

Lemma has_suffix_lte (col : string) : has_suffix (col +:+ "_lte") = true.
Proof. unfold has_suffix. by rewrite (endswith_append col "_lte"), orb_true_r. Qed.

Lemma has_suffix_like (col : string) : has_suffix (col +:+ "_like") = true.
Proof. unfold has_suffix. by rewrite (endswith_append col "_like"), orb_true_r. Qed.

Lemma not_reserved (key : string) : has_suffix key = true → key ∉ skip.
Proof. intros Hsuf Hin%reserved_no_suffix. congruence. Qed.

(** X3.  For a column of the table, the keys made of its name and
    [_gte] or [_lte] add the clauses >= and <= on that column, and the
    key made of its name and [_like] raises [TypeError], unless the key
    is itself the name of a key column; the bare name adds the equality
    when it is not reserved, not the name of a key column and does not
    end in one of the three suffixes. *)
Theorem filter_step_decodes (tbl : Table) (conds : list clause) (col val : string) :
  col ∈ column_names tbl →
  ((col +:+ "_gte") ∉ pk_names tbl →
     filter_step tbl conds (col +:+ "_gte", val) = Return (conds ++ [Ge col val])) ∧
  ((col +:+ "_lte") ∉ pk_names tbl →
     filter_step tbl conds (col +:+ "_lte", val) = Return (conds ++ [Le col val])) ∧
  ((col +:+ "_like") ∉ pk_names tbl →
     filter_step tbl conds (col +:+ "_like", val) = Raise TypeError) ∧
  ((col ∉ skip) → (col ∉ pk_names tbl) → has_suffix col = false →
     filter_step tbl conds (col, val) = Return (conds ++ [Eq col (Some val)])).
Proof.
  intros Hcol.
  assert (Hhas : has_column tbl col = true) by (by apply bool_decide_eq_true).
  split; [|split; [|split]].
  - intros Hpk. unfold filter_step.
    rewrite (bool_decide_eq_false_2 _ (not_reserved _ (has_suffix_gte col))).
    rewrite (bool_decide_eq_false_2 _ Hpk). cbn [orb].
    rewrite endswith_append.
    change 4%nat with (String.length "_gte"). by rewrite drop_last_append, Hhas.
  - intros Hpk. unfold filter_step.
    rewrite (bool_decide_eq_false_2 _ (not_reserved _ (has_suffix_lte col))).
    rewrite (bool_decide_eq_false_2 _ Hpk). cbn [orb].
    rewrite (endswith_append_other col "_lte" "_gte") by done.
    rewrite endswith_append.
    change 4%nat with (String.length "_lte"). by rewrite drop_last_append, Hhas.
  - intros Hpk. unfold filter_step.
    rewrite (bool_decide_eq_false_2 _ (not_reserved _ (has_suffix_like col))).
    rewrite (bool_decide_eq_false_2 _ Hpk). cbn [orb].
    rewrite (endswith_like_other col "_gte"), (endswith_like_other col "_lte") by done.
    rewrite endswith_append.
    change 5%nat with (String.length "_like"). by rewrite drop_last_append, Hhas.
  - intros Hskip Hpk Hsuf. unfold filter_step.
    rewrite (bool_decide_eq_false_2 _ Hskip), (bool_decide_eq_false_2 _ Hpk). cbn [orb].
    unfold has_suffix in Hsuf.
    apply orb_false_iff in Hsuf as [[Hg Hl]%orb_false_iff Hk].
    by rewrite Hg, Hl, Hk, Hhas.
Qed.

Lemma filter_step_decodes_witness :
  filter_step Sample.plazas [] ("nombre_like", "%ur") = Raise TypeError ∧
  filter_step Sample.plazas [] ("nombre", "Sur") = Return [Eq "nombre" (Some "Sur")].
Proof.
  destruct (filter_step_decodes Sample.plazas [] "nombre" "%ur") as (_ & _ & Hlike & _);
    [compute_done|].
  destruct (filter_step_decodes Sample.plazas [] "nombre" "Sur") as (_ & _ & _ & Heq);
    [compute_done|].
  split; [apply Hlike; compute_done|].
  apply Heq; [compute_done | compute_done | reflexivity].
Defined.

Lemma filter_loop_returns (tbl : Table) kvs conds :
  Forall (λ kv, like_on_column tbl kv.1 = false) kvs →
  ∃ conds', filter_loop tbl conds kvs = Return conds'.
Proof.
  intros Hall. revert conds.
  induction Hall as [|[key val] kvs Hkv _ IH]; intros conds; simpl; [eauto|].
  destruct (filter_step_not_like tbl conds key val Hkv) as [conds' ->]. apply IH.
Qed.

Lemma filter_loop_like (tbl : Table) kvs conds :
  Exists (λ kv, like_on_column tbl kv.1 = true) kvs →
  filter_loop tbl conds kvs = Raise TypeError.
Proof.
  intros Hex. revert conds.
  induction kvs as [|[key val] kvs IH]; intros conds; simpl;
    [by apply Exists_nil in Hex|].
  destruct (like_on_column tbl key) eqn:Hkey.
  - by rewrite filter_step_like.
  - destruct (filter_step_not_like tbl conds key val Hkey) as [conds' ->].
    apply IH. apply Exists_cons in Hex as [Hex|Hex]; [simpl in Hex; congruence | done].
Qed.

Lemma items_keys {V} (d : Py.dict V) (k : string) :
  k ∈ (Py.items d).*1 ↔ k ∈ d.*1.
Proof.
  rewrite !list_elem_of_fmap. split.
  - intros ([k' v] & -> & Hkv%elem_items). exists (k', v). split; [done|].
    clear -Hkv. induction d as [|[k1 v1] d IH]; simpl in *; [done|].
    destruct (decide (k' = k1)) as [->|]; [injection Hkv as ->; left | right; auto].
  - intros ([k' v] & -> & Hin). simpl.
    destruct (get_is_Some d k') as [v' Hv'].
    { apply list_elem_of_fmap. by exists (k', v). }
    exists (k', v'). split; [done | by apply elem_items].
Qed.

Lemma build_filters_like_iff (tbl : Table) (args : Py.dict string) :
  all_pk_present tbl args = false →
  build_filters tbl args = Raise TypeError ↔
  ∃ key, key ∈ args.*1 ∧ like_on_column tbl key = true.
Proof.
  intros Hmiss. unfold build_filters. rewrite Hmiss.
  destruct (decide (Exists (λ kv, like_on_column tbl kv.1 = true) (Py.items args)))
    as [Hex|Hno].
  - rewrite (filter_loop_like _ _ _ Hex). split; [intros _|done].
    apply Exists_exists in Hex as ([key val] & Hin & Hkey).
    exists key. split; [|done]. apply items_keys, list_elem_of_fmap. by exists (key, val).
  - assert (Hall : Forall (λ kv, like_on_column tbl kv.1 = false) (Py.items args)).
    { apply Forall_forall. intros kv Hkv.
      destruct (like_on_column tbl kv.1) eqn:Hk; [|done].
      exfalso. apply Hno, Exists_exists. eauto. }
    destruct (filter_loop_returns tbl _ [] Hall) as [conds ->].
    split; [by destruct conds|]. intros (key & Hin%items_keys & Hkey).
    apply list_elem_of_fmap in Hin as (kv & -> & Hkv).
    rewrite Forall_forall in Hall. specialize (Hall kv Hkv). congruence.
Qed.

(** X29.  On the general path [build_filters] raises exactly when some
    parameter is the name of a column followed by [_like] (and is not
    the name of a key column): it raises [TypeError], so the filter the
    docstring promises for [col_like] is never built. *)
Theorem build_filters_like_raises (tbl : Table) (args : Py.dict string) :
  all_pk_present tbl args = false →
  (build_filters tbl args = Raise TypeError ↔
     ∃ key, key ∈ args.*1 ∧ like_on_column tbl key = true) ∧
  (∀ e, build_filters tbl args = Raise e → e = TypeError) ∧
  (∀ col, col ∈ column_names tbl → (col +:+ "_like") ∈ args.*1 →
     (col +:+ "_like") ∉ pk_names tbl → build_filters tbl args = Raise TypeError).
Proof.
  intros Hmiss. split; [by apply build_filters_like_iff|].
  split; [apply build_filters_raises|].
  intros col Hcol Hin Hpk. apply build_filters_like_iff; [done|].
  exists (col +:+ "_like"). split; [done | by apply like_on_column_suffix].
Qed.

Lemma build_filters_like_raises_witness :
  build_filters Sample.plazas [("ruta", "RN3"); ("nombre_like", "%ur")] = Raise TypeError.
Proof.
  destruct (build_filters_like_raises Sample.plazas
              [("ruta", "RN3"); ("nombre_like", "%ur")]) as (_ & _ & Hcol);
    [reflexivity|].
  apply (Hcol "nombre"); compute_done.
Defined.

(** ** Postconditions of the computations of the handler *)

Section Rules.
Context {A B : Type}.

Lemma post_ret (a : A) w (Q : result A → world → Prop) :
  Q (Return a) w → post (mret a) w Q.
Proof. done. Qed.

Lemma post_raise (e : exn) w (Q : result A → world → Prop) :
  Q (Raise e) w → post (raise e) w Q.
Proof. done. Qed.

Lemma post_abort code description w (Q : result A → world → Prop) :
  Q (Raise (HTTPException code description)) w → post (abort code description) w Q.
Proof. done. Qed.

Lemma post_bind (m : M A) (f : A → M B) w (Q : result B → world → Prop) :
  post m w (λ r w', match r with
                    | Return a => post (f a) w' Q
                    | Raise e => Q (Raise e) w'
                    end) →
  post (m ≫= f) w Q.
Proof.
  unfold post, mbind, M_bind. by destruct (m w) as [[a|e] w'].
Qed.

Lemma post_mono (m : M A) w (Q Q' : result A → world → Prop) :
  post m w Q → (∀ r w', Q r w' → Q' r w') → post m w Q'.
Proof. unfold post. auto. Qed.

Lemma post_begin (m : M A) w (Q : result A → world → Prop) :
  post m w (λ r w', match r with
                    | Return a => Q (Return a) w'
                    | Raise e => Q (Raise e) {| rows := rows w; log := log w' |}
                    end) →
  post (begin m) w Q.
Proof. unfold post, begin. by destruct (m w) as [[a|e] w']. Qed.

Lemma post_connect (m : M A) w (Q : result A → world → Prop) :
  post m w (λ r w', Q r {| rows := rows w; log := log w' |}) →
  post (connect m) w Q.
Proof. unfold post, connect. by destruct (m w) as [r w']. Qed.

End Rules.

Lemma post_execute eng stmt w (Q : result CursorResult → world → Prop) :
  (accepts eng stmt (rows w) = true →
     Q (Return (run eng stmt (rows w)).1)
       {| rows := (run eng stmt (rows w)).2; log := log w ++ [stmt] |}) →
  (accepts eng stmt (rows w) = false →
     Q (Raise (DBAPIError stmt)) {| rows := rows w; log := log w ++ [stmt] |}) →
  post (execute eng stmt) w Q.
Proof.
  unfold post, execute. intros Hyes Hno.
  destruct (accepts eng stmt (rows w)); [|by apply Hno].
  destruct (run eng stmt (rows w)) as [res rs]. by apply Hyes.
Qed.

Lemma post_first res w (Q : result (option row) → world → Prop) :
  (returns_rows res = true → Q (Return (head (fetched res))) w) →
  (returns_rows res = false → Q (Raise ResourceClosedError) w) →
  post (first res) w Q.
Proof. unfold post, first. destruct (returns_rows res); auto. Qed.

Lemma post_all res w (Q : result (list row) → world → Prop) :
  (returns_rows res = true → Q (Return (fetched res)) w) →
  (returns_rows res = false → Q (Raise ResourceClosedError) w) →
  post (all res) w Q.
Proof. unfold post, all. destruct (returns_rows res); auto. Qed.

Lemma post_or_404 (r : option row) w (Q : result row → world → Prop) :
  (∀ kv r', r = Some (kv :: r') → Q (Return (kv :: r')) w) →
  (r = None ∨ r = Some [] → Q (Raise (HTTPException 404 "Not found")) w) →
  post (or_404 r) w Q.
Proof.
  unfold post, or_404. intros Hok Hno. destruct r as [[|kv r']|]; simpl; eauto.
Qed.

Lemma post_require_pk_loop cols args data w (Q : result (Py.dict string) → world → Prop) :
  (Forall (λ col, name col ∈ args.*1) cols →
     ∀ pkd, require_pk_loop cols args data w = (Return pkd, w) → Q (Return pkd) w) →
  (∀ col, col ∈ cols → name col ∉ args.*1 →
     Q (Raise (HTTPException 400 (missing_pk (name col)))) w) →
  post (require_pk_loop cols args data) w Q.
Proof.
  revert data. induction cols as [|col cols IH]; intros data Hok Hno.
  - apply Hok; [constructor | done].
  - unfold post. simpl. destruct (Py.get args (name col)) as [v|] eqn:Hv.
    + apply IH.
      * intros Hall pkd Hrun. apply Hok; [|by simpl; rewrite Hv].
        constructor; [by eapply get_Some_key | done].
      * intros col' Hin. apply Hno. by right.
    + apply Hno; [by left|]. intros Hin. apply get_is_Some in Hin as [v' Hv'].
      congruence.
Qed.

Lemma post_payload_known_columns tbl j w (Q : result (Py.dict json) → world → Prop) :
  (∀ o, or_empty j = JObj o →
     Q (Return (List.filter (λ kv, has_column tbl kv.1) (Py.items o))) w) →
  ((∀ o, or_empty j ≠ JObj o) → Q (Raise AttributeError) w) →
  post (payload_known_columns tbl j) w Q.
Proof.
  unfold post, payload_known_columns. intros Hok Hno.
  destruct (or_empty j) eqn:Hj; try (apply Hno; intros o; discriminate).
  by apply Hok.
Qed.

Lemma post_build_filters tbl a w (Q : result (option predicate) → world → Prop) :
  (∀ where_, build_filters tbl a = Return where_ → Q (Return where_) w) →
  (build_filters tbl a = Raise TypeError → Q (Raise TypeError) w) →
  post (lift (build_filters tbl a)) w Q.
Proof.
  unfold post, lift. intros Hok Hno. simpl.
  destruct (build_filters tbl a) as [where_|e] eqn:Hbuilt; [by apply Hok|].
  pose proof (build_filters_raises _ _ _ Hbuilt) as ->. by apply Hno.
Qed.

Lemma post_jsonify eng b w (Q : result body → world → Prop) :
  (forallb (jsonable eng) (rows_of b) = true → Q (Return b) w) →
  (forallb (jsonable eng) (rows_of b) = false → Q (Raise TypeError) w) →
  post (jsonify eng b) w Q.
Proof. unfold post, jsonify. destruct (forallb _ _); auto. Qed.

(** ** Every answer *)

Lemma serve_render eng cfg tname tbl req w :
  serve eng cfg tname tbl req w
  = (render (handler eng cfg tname tbl req w).1, (handler eng cfg tname tbl req w).2).
Proof.
  unfold serve. by destruct (handler eng cfg tname tbl req w) as [[[b st]|[]] w'].
Qed.

Lemma post_serve eng cfg tname tbl req w (Q : Response → world → Prop) :
  post (handler eng cfg tname tbl req) w (λ r w', Q (render r) w') →
  Q (serve eng cfg tname tbl req w).1 (serve eng cfg tname tbl req w).2.
Proof. rewrite serve_render. done. Qed.

Lemma post_if {A} (b : bool) (m1 m2 : M A) w (Q : result A → world → Prop) :
  (b = true → post m1 w Q) → (b = false → post m2 w Q) →
  post (if b then m1 else m2) w Q.
Proof. destruct b; auto. Qed.

Ltac post_step :=
  lazymatch goal with
  | |- post (match ?x with [] => _ | _ :: _ => _ end) _ _ => destruct x eqn:?
  | |- post (match ?x with Some _ => _ | None => _ end) _ _ => destruct x eqn:?
  | |- post (if _ then _ else _) _ _ => apply post_if; intros ?
  | |- post (_ ≫= _) _ _ => apply post_bind
  | |- post (mbind _ _) _ _ => apply post_bind
  | |- post (begin _) _ _ => apply post_begin
  | |- post (connect _) _ _ => apply post_connect
  | |- post (execute _ _) _ _ => apply post_execute; intros ?
  | |- post (first _) _ _ => apply post_first; intros ?
  | |- post (all _) _ _ => apply post_all; intros ?
  | |- post (lift (build_filters _ _)) _ _ =>
      apply post_build_filters; [intros ? ? | intros ?]
  | |- post (jsonify _ _) _ _ => apply post_jsonify; intros ?
  | |- post (or_404 _) _ _ => apply post_or_404; [intros ? ? ? | intros ?]
  | |- post (require_pk_params _ _) _ _ =>
      apply post_require_pk_loop; [intros ? ? ? | intros ? ? ?]
  | |- post (payload_known_columns _ _) _ _ =>
      apply post_payload_known_columns; [intros ? ? | intros ?]
  | |- post (abort _ _) _ _ => apply post_abort
  | |- post (raise _) _ _ => apply post_raise
  | |- post (mret _) _ _ => apply post_ret
  | |- post (parse_offset _) _ _ => unfold parse_offset
  | |- post (get_one _ _ _) _ _ => unfold get_one
  | |- post (get_list _ _ _ _) _ _ => unfold get_list
  | |- post (do_post _ _ _ _ _) _ _ => unfold do_post
  | |- post (do_put _ _ _ _ _) _ _ => unfold do_put
  | |- post (do_delete _ _ _ _ _) _ _ => unfold do_delete
  | |- post (handler _ _ _ _ _) _ _ => unfold handler
  end.

Ltac post_steps := repeat (post_step; cbv zeta).

(** X4.  Every answer has one of the statuses 200, 201, 400, 404, 405
    and 500: a row with 200 or 201, a listing or a deletion with 200, an
    HTTP error with its own code and name, any other exception with
    500. *)
Theorem serve_answer_ok eng cfg tname tbl req w :
  answer_ok (serve eng cfg tname tbl req w).1.
Proof.
  apply (post_serve eng cfg tname tbl req w (λ r _, answer_ok r)).
  post_steps; unfold answer_ok; simpl; auto 6.
Qed.

(** X5.  A request sends at most one statement to the engine; an
    answer 400 or 405 is given before any statement and leaves rows and
    log as they were; an answer 200, 201 or 404 comes after exactly
    one. *)
Theorem serve_one_statement eng cfg tname tbl req w :
  let out := serve eng cfg tname tbl req w in
  (log out.2 = log w ∨ ∃ stmt, log out.2 = log w ++ [stmt]) ∧
  (status_code out.1 = 400 ∨ status_code out.1 = 405 → out.2 = w) ∧
  (status_code out.1 = 200 ∨ status_code out.1 = 201 ∨ status_code out.1 = 404 →
     ∃ stmt, log out.2 = log w ++ [stmt]).
Proof.
  cbv zeta.
  apply (post_serve eng cfg tname tbl req w (λ r w',
    (log w' = log w ∨ ∃ stmt, log w' = log w ++ [stmt]) ∧
    (status_code r = 400 ∨ status_code r = 405 → w' = w) ∧
    (status_code r = 200 ∨ status_code r = 201 ∨ status_code r = 404 →
       ∃ stmt, log w' = log w ++ [stmt]))).
  post_steps; simpl; (split; [eauto | split; [intros [?|?]; done || by destruct w | intros [?|[?|?]]; try done; eauto]]).
Qed.

(** X6.  A GET leaves the rows of the table as they were, and the
    statement it sends, if any, is a SELECT. *)
Theorem serve_get_reads_only eng cfg tname tbl req w :
  method req = "GET" →
  let out := serve eng cfg tname tbl req w in
  rows out.2 = rows w ∧
  (log out.2 = log w ∨ ∃ stmt, is_select stmt = true ∧ log out.2 = log w ++ [stmt]).
Proof.
  intros Hm. cbv zeta.
  apply (post_serve eng cfg tname tbl req w (λ r w',
    rows w' = rows w ∧
    (log w' = log w ∨ ∃ stmt, is_select stmt = true ∧ log w' = log w ++ [stmt]))).
  unfold handler. rewrite Hm. simpl.
  post_steps; simpl;
    (split; [done | first [by left | right; eexists; split; [|reflexivity]; reflexivity]]).
Qed.

Lemma serve_get_reads_only_witness :
  rows (serve Sample.engine Sample.config "plazas" Sample.plazas (Sample.GET [("id", "2")]) Sample.stored).2 = rows Sample.stored.
Proof.
  exact (proj1 (serve_get_reads_only Sample.engine Sample.config "plazas" Sample.plazas (Sample.GET [("id", "2")]) Sample.stored eq_refl)).
Defined.

(** ** The columns a statement names *)

Lemma parse_order_known (tbl : Table) (args : Py.dict string) (o : order) :
  parse_order tbl args = Some o →
  Py.get args "order_by" = Some (order_column o) ∧
  order_column o ≠ "" ∧
  order_column o ∈ column_names tbl.
Proof.
  unfold parse_order. destruct (Py.get args "order_by") as [ob|]; [|done].
  destruct (String.eqb_spec ob "") as [->|Hne]; [done|]. simpl.
  unfold has_column. destruct (decide (ob ∈ column_names tbl)) as [Hin|Hout].
  - rewrite (bool_decide_eq_true_2 _ Hin). simpl.
    destruct (String.eqb _ "desc"); intros [= <-]; done.
  - by rewrite (bool_decide_eq_false_2 _ Hout).
Qed.

Lemma known_payload_keys (tbl : Table) (o : Py.dict json) :
  Forall (λ col, col ∈ column_names tbl)
    (List.filter (λ kv, has_column tbl kv.1) (Py.items o)).*1.
Proof.
  apply Forall_forall. intros k ([k' v] & -> & Hin)%list_elem_of_fmap.
  apply list_elem_of_In, filter_In in Hin as [_ Hcol]. simpl in *.
  by apply bool_decide_eq_true in Hcol.
Qed.

Lemma pk_equals_columns (tbl : Table) (args pkd : Py.dict string) (w : world) :
  Forall (λ col, name col ∈ args.*1) (pk_columns tbl) →
  require_pk_loop (pk_columns tbl) args [] w = (Return pkd, w) →
  Forall (λ col, col ∈ pk_names tbl) (clause_column <$> clauses (pk_equals pkd)).
Proof.
  intros Hall Hrun.
  destruct (require_pk_loop_present _ _ [] w Hall) as (pkd' & Hrun' & Hget).
  rewrite Hrun in Hrun'. injection Hrun' as <-.
  apply Forall_forall. intros k (cl & -> & Hcl)%list_elem_of_fmap.
  unfold pk_equals, clauses in Hcl.
  apply list_elem_of_fmap in Hcl as ([k v] & -> & Hkv%elem_items). simpl.
  rewrite Hget in Hkv. by destruct (decide (k ∈ name <$> pk_columns tbl)).
Qed.

Lemma pk_lookup_columns (tbl : Table) (args : Py.dict string) :
  clause_column <$> pk_lookup tbl args = pk_names tbl.
Proof.
  unfold pk_lookup, pk_names. rewrite <- list_fmap_compose. done.
Qed.

Lemma build_filters_columns (tbl : Table) (args : Py.dict string) where_ :
  all_pk_present tbl args = false →
  build_filters tbl args = Return where_ →
  Forall (λ col, col ∈ column_names tbl)
    (clause_column <$> from_option clauses [] where_).
Proof.
  intros Hmiss Hp. destruct where_ as [p|]; [|constructor].
  simpl. apply Forall_fmap.
  destruct (build_filters_general _ _ _ Hmiss Hp) as [Hloop _].
  by eapply filter_loop_columns.
Qed.

Lemma parse_order_columns (tbl : Table) (args : Py.dict string) :
  Forall (λ col, col ∈ column_names tbl)
    (order_column <$> option_list (parse_order tbl args)).
Proof.
  destruct (parse_order tbl args) as [o|] eqn:Ho; [|constructor].
  simpl. constructor; [|constructor]. by apply parse_order_known in Ho as (_ & _ & ?).
Qed.

(** X7.  When the key columns are columns of the table, every column
    name in a statement sent to the engine (in its filter, its ordering,
    its values and its RETURNING list) is a column of the table. *)
Theorem statements_name_known_columns eng cfg tname tbl req w :
  Forall (λ col, col ∈ column_names tbl) (pk_names tbl) →
  ∀ stmt, log (serve eng cfg tname tbl req w).2 = log w ++ [stmt] →
    Forall (λ col, col ∈ column_names tbl) (statement_columns stmt).
Proof.
  intros Hpk.
  assert (Hsub : ∀ l, Forall (λ col, col ∈ pk_names tbl) l →
                      Forall (λ col, col ∈ column_names tbl) l).
  { intros l Hl. eapply Forall_impl; [exact Hl|]. rewrite Forall_forall in Hpk. auto. }
  apply (post_serve eng cfg tname tbl req w (λ r w',
    ∀ stmt, log w' = log w ++ [stmt] →
      Forall (λ col, col ∈ column_names tbl) (statement_columns stmt))).
  post_steps;
    repeat match goal with
           | H : List.filter _ _ = _ :: _ |- _ => rewrite <- H in *; clear H
           end;
    simpl; intros stmt Hlog;
    try (by apply app_singleton_neq in Hlog);
    apply app_inv_head in Hlog as [= <-]; unfold statement_columns.
  all: repeat (apply Forall_app; split);
    try (apply Forall_forall; intros ? ?; done);
    try (by apply known_payload_keys);
    try (apply Hsub; by eapply pk_equals_columns);
    try (by eapply build_filters_columns);
    try (by apply parse_order_columns);
    try done;
    try (simpl; rewrite pk_lookup_columns; done).
Qed.

Lemma statements_name_known_columns_witness :
  Forall (λ col, col ∈ column_names Sample.plazas)
    (statement_columns
       (Select (Some (And [Eq "nombre" (Some "Sur")])) (Some (Asc "ruta")) 100 (Some 0))).
Proof.
  apply (statements_name_known_columns Sample.engine Sample.config "plazas" Sample.plazas
           (Sample.GET [("nombre", "Sur"); ("order_by", "ruta"); ("order_dir", "asc");
                        ("color", "rojo")])
           Sample.stored); [compute_done | reflexivity].
Defined.

(** ** What a request that fails leaves behind *)

Lemma filter_nil_negb {A} (f : A → bool) (l : list A) :
  List.filter f l = [] → List.filter (λ x, negb (f x)) l = l.
Proof.
  induction l as [|x l IH]; simpl; [done|].
  destruct (f x); [done|]. intros ?%IH. simpl. by f_equal.
Qed.

Lemma filter_nil_map {A} (f : A → bool) (g : A → A) (l : list A) :
  List.filter f l = [] → (λ x, if f x then g x else x) <$> l = l.
Proof.
  induction l as [|x l IH]; [done|]. rewrite fmap_cons. simpl.
  destruct (f x) eqn:Hx; [done|]. intros ?%IH. by f_equal.
Qed.

Lemma head_fmap_None {A B} (g : A → B) (l : list A) :
  head (g <$> l) = None → l = [].
Proof. by destruct l. Qed.

Lemma head_fmap_Some {A B} (g : A → B) (l : list A) (y : B) :
  head (g <$> l) = Some y → ∃ x l', l = x :: l' ∧ y = g x.
Proof. destruct l as [|x l']; [done|]. intros [= <-]. eauto. Qed.

Lemma project_nil (cols : list string) (r : row) :
  project cols r = [] → has_returning cols = false.
Proof. by destruct cols. Qed.

Lemma set_nonempty {V} (d : Py.dict V) (k : string) (v : V) : Py.set d k v ≠ [].
Proof.
  destruct d as [|[k' v'] d]; simpl; [done|].
  by destruct (decide (k = k')).
Qed.

(** The sample engine's UPDATE of at least one column never returns an
    empty row. *)
Lemma sample_assigned (vals : list (string * json)) (r : row) :
  vals ≠ [] → assigned Sample.engine vals r ≠ [].
Proof.
  simpl. revert r. induction vals as [|kv vals IH]; intros r Hne; [done|].
  destruct vals as [|kv' vals]; [apply set_nonempty|].
  change (foldl (λ acc kv0, Py.set acc kv0.1 kv0.2) (Py.set r kv.1 kv.2) (kv' :: vals) ≠ []).
  apply IH. discriminate.
Qed.

Lemma sample_jsonable (data : list row) : forallb (jsonable Sample.engine) data = true.
Proof. by induction data. Qed.

(** X8.  With an engine whose UPDATE of at least one column returns
    rows of at least one field, a request that is not answered 200 or
    201 leaves the rows of the table as they were, with one exception:
    a POST, PUT or PATCH whose statement has run and been committed and
    whose returned row [jsonify] cannot serialise is answered 500 with
    the change in place. *)
Theorem serve_error_keeps_rows eng cfg tname tbl req w :
  (∀ vals r, vals ≠ [] → assigned eng vals r ≠ []) →
  let out := serve eng cfg tname tbl req w in
  status_code out.1 ≠ 200 → status_code out.1 ≠ 201 →
  rows out.2 = rows w ∨
  (method req ∈ ["POST"; "PUT"; "PATCH"] ∧
   out.1 = {| status_code := 500; payload := InternalError TypeError |} ∧
   ∃ stmt r,
     accepts eng stmt (rows w) = true ∧
     out.2 = {| rows := (run eng stmt (rows w)).2; log := log w ++ [stmt] |} ∧
     head (fetched (run eng stmt (rows w)).1) = Some r ∧
     jsonable eng r = false).
Proof.
  intros Hassigned. cbv zeta.
  apply (post_serve eng cfg tname tbl req w (λ resp w',
    status_code resp ≠ 200 → status_code resp ≠ 201 →
    rows w' = rows w ∨
    (method req ∈ ["POST"; "PUT"; "PATCH"] ∧
     resp = {| status_code := 500; payload := InternalError TypeError |} ∧
     ∃ stmt r,
       accepts eng stmt (rows w) = true ∧
       w' = {| rows := (run eng stmt (rows w)).2; log := log w ++ [stmt] |} ∧
       head (fetched (run eng stmt (rows w)).1) = Some r ∧
       jsonable eng r = false))).
  post_steps; simpl in *; try done; intros _ _; try (by left).
  all: try (right; split;
    [repeat match goal with
            | H : (_ || _) = true |- _ => apply orb_true_iff in H as [H|H]
            end;
     match goal with
     | H : (method _ =? _)%string = true |- _ => apply String.eqb_eq in H; rewrite H
     end; apply list_elem_of_In; simpl; auto 6
    |split; [done|]];
    match goal with
    | Hacc : accepts _ ?stmt _ = true,
      Hjs : jsonable _ ?r && true = false |- _ =>
        exists stmt, r; simpl; rewrite andb_true_r in Hjs; by repeat split
    end).
  all: left.
  all: match goal with
       | H : head _ = None ∨ head _ = Some [] |- _ => destruct H as [H|H]
       end.
  all: try match goal with
       | H : head (_ <$> _) = None |- _ =>
           apply head_fmap_None in H;
           by first [apply (filter_nil_map (matches eng _) (assigned eng _))
                    | apply (filter_nil_negb (matches eng _))]
       end.
  all: match goal with
       | H : head (_ <$> _) = Some [] |- _ =>
           apply head_fmap_Some in H as (r0 & l' & _ & Hr0); symmetry in Hr0
       end.
  - by apply Hassigned in Hr0.
  - apply project_nil in Hr0. congruence.
Qed.

Lemma serve_error_keeps_rows_witness :
  rows (serve Sample.engine Sample.config "plazas" Sample.plazas
          (Sample.DELETE [("id", "9")]) Sample.stored).2
  = rows Sample.stored ∧
  (serve Deployment.blobs Sample.config "plazas" Sample.plazas
     (Sample.POST (JObj [("id", JStr "3")])) Sample.stored).1
  = {| status_code := 500; payload := InternalError TypeError |} ∧
  rows (serve Deployment.blobs Sample.config "plazas" Sample.plazas
          (Sample.POST (JObj [("id", JStr "3")])) Sample.stored).2
  ≠ rows Sample.stored.
Proof.
  split; [|split; [|discriminate]].
  - destruct (serve_error_keeps_rows Sample.engine Sample.config "plazas" Sample.plazas
                (Sample.DELETE [("id", "9")]) Sample.stored) as [Hsame|(Hm & _)];
      [apply sample_assigned | compute_done | compute_done | exact Hsame |].
    exfalso. revert Hm. compute_done.
  - destruct (serve_error_keeps_rows Deployment.blobs Sample.config "plazas" Sample.plazas
                (Sample.POST (JObj [("id", JStr "3")])) Sample.stored) as [Hsame|(_ & Hanswer & _)];
      [apply sample_assigned | compute_done | compute_done | | exact Hanswer].
    discriminate Hsame.
Defined.

(** ** Reading and deleting by key *)

Section Runs.

Context (eng : Engine) (cfg : Config) (tname : string) (tbl : Table).
Implicit Types (req : Request) (w : world).

Lemma require_pk_params_present req w :
  Forall (λ col, name col ∈ (args req).*1) (pk_columns tbl) →
  ∃ pkd, require_pk_params tbl (args req) w = (Return pkd, w) ∧
         ∀ r, matches eng (pk_equals pkd) r = by_key eng tbl req r.
Proof.
  intros Hall. unfold require_pk_params.
  destruct (require_pk_loop_present _ _ [] w Hall) as (pkd & Hrun & Hget).
  exists pkd. split; [done|]. intros r. unfold by_key, matches.
  apply forallb_same_elements, pk_equals_same_clauses; [done|].
  intros k. rewrite Hget. unfold pk_names. by destruct (decide _).
Qed.



(** GET with every key column given and an engine that runs the
    statement. *)
Lemma get_one_run req w :
  method req = "GET" →
  Forall (λ col, name col ∈ (args req).*1) (pk_columns tbl) →
  accepts eng (Select (Some (And (pk_lookup tbl (args req)))) None 1 None) (rows w) = true →
  serve eng cfg tname tbl req w
  = (match List.filter (by_key eng tbl req) (rows w) with
     | [] => handle_http_error 404 "Not found"
     | [] :: _ => handle_http_error 404 "Not found"
     | r :: _ =>
         if jsonable eng r then {| status_code := 200; payload := Record_ r |}
         else handle_any_error TypeError
     end,
     {| rows := rows w;
        log := log w ++ [Select (Some (And (pk_lookup tbl (args req)))) None 1 None] |}).
Proof.
  intros Hm Hall Hacc. unfold serve.
  rewrite handler_GET by done.
  rewrite (proj2 (all_pk_present_true tbl (args req)) Hall).
  unfold get_one, mbind, M_bind, connect, execute. rewrite Hacc. simpl.
  unfold page. simpl. change (Pos.to_nat 1) with 1%nat. unfold by_key.
  destruct (List.filter _ (rows w)) as [|[|kv r] rs]; try done.
  simpl. unfold jsonify. simpl. rewrite andb_true_r.
  by destruct (jsonable eng (kv :: r)).
Qed.

End Runs.

Lemma filter_first_hit {A} (f : A → bool) (pre post : list A) (x : A) :
  Forall (λ y, f y = false) pre → f x = true →
  List.filter f (pre ++ x :: post) = x :: List.filter f post.
Proof.
  intros Hpre Hx. rewrite List.filter_app, (filter_none f pre Hpre). simpl. by rewrite Hx.
Qed.


Section Behaviour.

Context (eng : Engine) (cfg : Config) (tname : string) (tbl : Table).
Implicit Types (req : Request) (w : world).

(** X9.  A GET that gives every key column, on an engine that runs
    the statement, leaves the rows as they were, is answered 404 when
    no row satisfies the key equalities, and otherwise is answered 200
    with the first row that satisfies them (500 if [jsonify] cannot
    serialise a value of that row). *)
Theorem get_by_key req w :
  method req = "GET" →
  Forall (λ col, name col ∈ (args req).*1) (pk_columns tbl) →
  accepts eng (Select (Some (And (pk_lookup tbl (args req)))) None 1 None) (rows w) = true →
  let out := serve eng cfg tname tbl req w in
  rows out.2 = rows w ∧
  (Forall (λ r, by_key eng tbl req r = false) (rows w) →
     out.1 = {| status_code := 404; payload := HttpError "Not Found" "Not found" 404 |}) ∧
  (∀ pre r post, rows w = pre ++ r :: post →
     Forall (λ r', by_key eng tbl req r' = false) pre →
     by_key eng tbl req r = true → r ≠ [] →
     out.1 = if jsonable eng r
             then {| status_code := 200; payload := Record_ r |}
             else {| status_code := 500; payload := InternalError TypeError |}).
Proof.
  intros Hm Hall Hacc out. subst out.
  rewrite (get_one_run eng cfg tname tbl req w Hm Hall Hacc). simpl.
  split; [done|]. split.
  - intros Hnone. by rewrite (filter_none _ _ Hnone).
  - intros pre r post -> Hpre Hr Hne.
    rewrite (filter_first_hit _ _ _ _ Hpre Hr). by destruct r.
Qed.




End Behaviour.

Lemma get_by_key_witness :
  (serve Sample.engine Sample.config "plazas" Sample.plazas (Sample.GET [("id", "2"); ("nombre", "Norte")]) Sample.stored).1
  = {| status_code := 200;
       payload := Record_ [("id", JStr "2"); ("nombre", JStr "Sur"); ("ruta", JStr "RN3")] |}.
Proof.
  destruct (get_by_key Sample.engine Sample.config "plazas" Sample.plazas (Sample.GET [("id", "2"); ("nombre", "Norte")]) Sample.stored)
    as (_ & _ & Hhit); [reflexivity | compute_done | reflexivity |].
  apply (Hhit [[("id", JStr "1"); ("nombre", JStr "Norte"); ("ruta", JStr "RN9")]]
              [("id", JStr "2"); ("nombre", JStr "Sur"); ("ruta", JStr "RN3")] []);
    [reflexivity | compute_done | reflexivity | discriminate].
Defined.




(** ** Creating *)





Section Writes.

Context (eng : Engine) (cfg : Config) (tname : string) (tbl : Table).
Implicit Types (req : Request) (w : world).




End Writes.



(** ** Requests that are refused *)

Lemma require_pk_loop_missing (pre post : list Column) (col : Column)
    (args data : Py.dict string) (w : world) :
  Forall (λ c, name c ∈ args.*1) pre →
  name col ∉ args.*1 →
  require_pk_loop (pre ++ col :: post) args data w
  = (Raise (HTTPException 400 (missing_pk (name col))), w).
Proof.
  intros Hpre Hcol. revert data.
  induction Hpre as [|c pre Hc _ IH]; intros data; simpl.
  - destruct (Py.get args (name col)) as [v|] eqn:Hv; [|done].
    by apply get_Some_key in Hv.
  - destruct (get_is_Some _ _ Hc) as [v ->]. apply IH.
Qed.

Lemma payload_not_object (tbl : Table) (j : json) w :
  truthy j = true → (∀ o, j ≠ JObj o) →
  payload_known_columns tbl j w = (Raise AttributeError, w).
Proof.
  intros Htrue Hobj. unfold payload_known_columns, or_empty. rewrite Htrue.
  destruct j; try done. by destruct (Hobj o).
Qed.

Section Refusals.

Context (eng : Engine) (cfg : Config) (tname : string) (tbl : Table).
Implicit Types (req : Request) (w : world).

(** X15.  A method other than GET, POST, PUT, PATCH and DELETE is
    answered 405 "Method not allowed", and nothing is sent to the
    engine. *)
Theorem other_method_not_allowed req w :
  method req ∉ ["GET"; "POST"; "PUT"; "PATCH"; "DELETE"] →
  serve eng cfg tname tbl req w
  = ({| status_code := 405;
        payload := HttpError "Method Not Allowed" "Method not allowed" 405 |}, w).
Proof.
  intros Hm. unfold serve, handler.
  rewrite !not_elem_of_cons in Hm. destruct Hm as (H1 & H2 & H3 & H4 & H5 & _).
  apply String.eqb_neq in H1, H2, H3, H4, H5. by rewrite H1, H2, H3, H4, H5.
Qed.

(** X16.  On a table that is not read-only, PUT, PATCH and DELETE
    without one of the key columns among the parameters are answered
    400, with a message that names the first key column that is
    missing, in key order; the body is not looked at and nothing is
    sent to the engine. *)
Theorem missing_key_parameter req w (pre post : list Column) (col : Column) :
  tname ∉ READ_ONLY cfg →
  method req ∈ ["PUT"; "PATCH"; "DELETE"] →
  pk_columns tbl = pre ++ col :: post →
  Forall (λ c, name c ∈ (args req).*1) pre →
  name col ∉ (args req).*1 →
  serve eng cfg tname tbl req w
  = ({| status_code := 400;
        payload := HttpError "Bad Request" (missing_pk (name col)) 400 |}, w).
Proof.
  intros Hrw Hm Hpk Hpre Hcol. unfold serve.
  assert (Hrun : handler eng cfg tname tbl req w
                 = (Raise (HTTPException 400 (missing_pk (name col))), w)).
  { rewrite !elem_of_cons, elem_of_nil in Hm.
    destruct Hm as [Hm|[Hm|[Hm|[]]]].
    - rewrite handler_PUT by auto. unfold do_put.
      rewrite (bool_decide_eq_false_2 _ Hrw). unfold mbind, M_bind, require_pk_params.
      by rewrite Hpk, require_pk_loop_missing.
    - rewrite handler_PUT by auto. unfold do_put.
      rewrite (bool_decide_eq_false_2 _ Hrw). unfold mbind, M_bind, require_pk_params.
      by rewrite Hpk, require_pk_loop_missing.
    - rewrite handler_DELETE by auto. unfold do_delete.
      rewrite (bool_decide_eq_false_2 _ Hrw). unfold mbind, M_bind, require_pk_params.
      by rewrite Hpk, require_pk_loop_missing. }
  by rewrite Hrun.
Qed.

(** X17.  On a table that is not read-only, a PUT or PATCH that gives
    every key column and whose body is empty, or an object none of
    whose fields is a column, is answered 400, and nothing is sent to
    the engine. *)
Theorem put_unknown_fields req w :
  tname ∉ READ_ONLY cfg →
  method req = "PUT" ∨ method req = "PATCH" →
  Forall (λ col, name col ∈ (args req).*1) (pk_columns tbl) →
  truthy (get_json req) = false ∨
    (∃ o, get_json req = JObj o ∧ Forall (λ kv, kv.1 ∉ column_names tbl) o) →
  serve eng cfg tname tbl req w
  = ({| status_code := 400;
        payload := HttpError "Bad Request" "Empty payload or unknown fields" 400 |}, w).
Proof.
  intros Hrw Hm Hall Hbody. unfold serve.
  rewrite handler_PUT by done. unfold do_put.
  rewrite (bool_decide_eq_false_2 _ Hrw).
  destruct (require_pk_params_present eng tbl req w Hall) as (pkd & Hpkd & _).
  unfold mbind, M_bind at 1. rewrite Hpkd.
  unfold mbind, M_bind. by rewrite payload_known_columns_empty.
Qed.

(** X18.  On a table that is not read-only, a POST (or a PUT or PATCH
    that gives every key column) whose JSON body is a non-empty array,
    a non-empty string, a non-zero number or [true] makes
    [payload_known_columns] raise [AttributeError]: the answer is 500,
    not 400, and nothing is sent to the engine. *)
Theorem body_not_an_object req w :
  tname ∉ READ_ONLY cfg →
  method req ∈ ["POST"; "PUT"; "PATCH"] →
  (method req ≠ "POST" → Forall (λ col, name col ∈ (args req).*1) (pk_columns tbl)) →
  truthy (get_json req) = true →
  (∀ o, get_json req ≠ JObj o) →
  serve eng cfg tname tbl req w
  = ({| status_code := 500; payload := InternalError AttributeError |}, w).
Proof.
  intros Hrw Hm Hall Htrue Hobj. unfold serve.
  assert (Hj : or_empty (get_json req) = get_json req) by (unfold or_empty; by rewrite Htrue).
  assert (Hrun : handler eng cfg tname tbl req w = (Raise AttributeError, w)).
  { rewrite !elem_of_cons, elem_of_nil in Hm.
    destruct Hm as [Hm|[Hm|[Hm|[]]]].
    - rewrite handler_POST by done. unfold do_post.
      rewrite (bool_decide_eq_false_2 _ Hrw), Hj.
      unfold mbind, M_bind. by rewrite payload_not_object.
    - rewrite handler_PUT by auto. unfold do_put.
      rewrite (bool_decide_eq_false_2 _ Hrw), Hj.
      destruct (require_pk_params_present eng tbl req w) as (pkd & Hpkd & _);
        [apply Hall; by rewrite Hm|].
      unfold mbind, M_bind at 1. rewrite Hpkd.
      unfold mbind, M_bind. by rewrite payload_not_object.
    - rewrite handler_PUT by auto. unfold do_put.
      rewrite (bool_decide_eq_false_2 _ Hrw), Hj.
      destruct (require_pk_params_present eng tbl req w) as (pkd & Hpkd & _);
        [apply Hall; by rewrite Hm|].
      unfold mbind, M_bind at 1. rewrite Hpkd.
      unfold mbind, M_bind. by rewrite payload_not_object. }
  by rewrite Hrun.
Qed.

End Refusals.

Lemma other_method_not_allowed_witness :
  serve Sample.engine Sample.config "plazas" Sample.plazas Deployment.HEAD Sample.stored
  = ({| status_code := 405;
        payload := HttpError "Method Not Allowed" "Method not allowed" 405 |},
     Sample.stored).
Proof. apply other_method_not_allowed. compute_done. Defined.

Lemma missing_key_parameter_witness :
  serve Sample.engine Sample.config "tarifas" Sample.tarifas
    (Deployment.PUT [("plaza_id", "1")] (JArr [JInt 1])) Sample.tariffs
  = ({| status_code := 400;
        payload := HttpError "Bad Request"
                     "Missing primary key parameter 'categoria'" 400 |},
     Sample.tariffs).
Proof.
  apply (missing_key_parameter Sample.engine Sample.config "tarifas" Sample.tarifas
           (Deployment.PUT [("plaza_id", "1")] (JArr [JInt 1])) Sample.tariffs
           [Sample.col "plaza_id" Integer] [] (Sample.col "categoria" Text));
    [compute_done | compute_done | reflexivity | compute_done | compute_done].
Defined.

Lemma put_unknown_fields_witness :
  serve Sample.engine Sample.config "plazas" Sample.plazas (Deployment.PUT [("id", "1")] (JObj [("color", JStr "rojo")])) Sample.stored
  = ({| status_code := 400;
        payload := HttpError "Bad Request" "Empty payload or unknown fields" 400 |},
     Sample.stored).
Proof.
  apply put_unknown_fields.
  - compute_done.
  - by left.
  - compute_done.
  - right. eexists. split; [reflexivity | compute_done].
Defined.

Lemma body_not_an_object_witness :
  serve Sample.engine Sample.config "plazas" Sample.plazas (Sample.POST (JArr [JObj [("nombre", JStr "Este")]])) Sample.stored
  = ({| status_code := 500; payload := InternalError AttributeError |}, Sample.stored).
Proof.
  apply body_not_an_object.
  - compute_done.
  - compute_done.
  - intros Hm. by destruct Hm.
  - reflexivity.
  - intros o. discriminate.
Defined.

(** ** Updating and listing *)

Section Updates.

Context (eng : Engine) (cfg : Config) (tname : string) (tbl : Table).
Implicit Types (req : Request) (w : world).



(** X20.  On the list path, once the offset is read (absent, then 0,
    or a string that [int()] accepts) and the filter is built, and on
    an engine that runs the statement: the statement sent is the list
    query, the rows are left as they were, and the answer is 200 with
    a listing that repeats the limit and the offset used (500 if
    [jsonify] cannot serialise a value of a row).  When neither the
    limit nor the offset is negative the listing has at most [limit]
    rows and, without ordering, is the page cut out of the filtered
    rows; it then has at most the configured maximum of rows when that
    is at least 1 and the limit is absent or numeric. *)
Theorem get_list_page req w :
  method req = "GET" →
  all_pk_present tbl (args req) = false →
  let limit := cast_limit (Py.get (args req) "limit") (DEFAULT_LIMIT cfg) (MAX_LIMIT cfg) in
  ∀ off where_,
    (Py.get (args req) "offset" = None ∧ off = 0 ∨
     ∃ s, Py.get (args req) "offset" = Some s ∧ Py.int s = Some off) →
    build_filters tbl (args req) = Return where_ →
    let stmt := Select where_ (parse_order tbl (args req)) limit (Some off) in
    accepts eng stmt (rows w) = true →
    let out := serve eng cfg tname tbl req w in
    let filtered := match where_ with
                    | Some p => List.filter (matches eng p) (rows w)
                    | None => rows w
                    end in
    let data := fetched (run eng stmt (rows w)).1 in
    out.2 = {| rows := rows w; log := log w ++ [stmt] |} ∧
    out.1 = (if forallb (jsonable eng) data
             then {| status_code := 200; payload := Listing data limit off |}
             else {| status_code := 500; payload := InternalError TypeError |}) ∧
    (0 ≤ limit → 0 ≤ off →
       (List.length data ≤ Z.to_nat limit)%nat ∧
       (parse_order tbl (args req) = None →
          data = take (Z.to_nat limit) (drop (Z.to_nat off) filtered))) ∧
    (1 ≤ MAX_LIMIT cfg → 0 ≤ off →
     (Py.get (args req) "limit" = None ∨
      ∃ s, Py.get (args req) "limit" = Some s ∧ is_Some (Py.int s)) →
     Z.of_nat (List.length data) ≤ MAX_LIMIT cfg).
Proof.
  intros Hm Hmiss limit off where_ Hoff Hbuilt stmt Hacc out filtered data. subst out data.
  unfold serve. rewrite handler_GET, Hmiss by done.
  rewrite (get_list_run eng cfg tbl req w off where_ Hoff Hbuilt).
  fold limit. fold stmt. rewrite Hacc. cbv zeta.
  split; [by destruct (forallb _ _)|]. split; [by destruct (forallb _ _)|].
  assert (Hpaged : 0 ≤ limit → 0 ≤ off →
    fetched (run eng stmt (rows w)).1
    = take (Z.to_nat limit)
        (drop (Z.to_nat off)
           (match parse_order tbl (args req) with
            | Some ob => sorted eng ob filtered
            | None => filtered
            end))).
  { intros Hl Ho. subst stmt. simpl. unfold page. simpl.
    by rewrite (proj2 (Z.leb_le 0 limit) Hl), (proj2 (Z.leb_le 0 off) Ho). }
  assert (Hlen : 0 ≤ limit → 0 ≤ off →
    (List.length (fetched (run eng stmt (rows w)).1) ≤ Z.to_nat limit)%nat).
  { intros Hl Ho. rewrite (Hpaged Hl Ho), length_take. lia. }
  split; [|].
  - intros Hl Ho. split; [by apply Hlen|]. intros Hord.
    rewrite (Hpaged Hl Ho), Hord. done.
  - intros Hmax Ho Hlimit.
    assert (Hrange : 1 ≤ limit ≤ MAX_LIMIT cfg).
    { subst limit. unfold cast_limit.
      destruct Hlimit as [->|(s & -> & v & ->)]; lia. }
    assert (Hl : 0 ≤ limit) by lia. specialize (Hlen Hl Ho). lia.
Qed.

(** X30.  On the list path, with an offset that is absent or that
    [int()] accepts, a parameter made of a column name and [_like]
    (not itself the name of a key column) is answered 500: the filter
    raises [TypeError] before any statement is sent. *)
Theorem get_list_like_fails req w :
  method req = "GET" →
  all_pk_present tbl (args req) = false →
  (Py.get (args req) "offset" = None ∨
   ∃ s, Py.get (args req) "offset" = Some s ∧ is_Some (Py.int s)) →
  (∃ key, key ∈ (args req).*1 ∧ like_on_column tbl key = true) →
  serve eng cfg tname tbl req w
  = ({| status_code := 500; payload := InternalError TypeError |}, w) ∧
  ∀ col, col ∈ column_names tbl → (col +:+ "_like") ∉ pk_names tbl →
    like_on_column tbl (col +:+ "_like") = true.
Proof.
  intros Hm Hmiss Hoff Hlike. split; [|apply like_on_column_suffix].
  apply build_filters_like_iff in Hlike; [|done].
  unfold serve. rewrite handler_GET, Hmiss by done.
  unfold get_list, parse_offset.
  destruct Hoff as [->|(s & -> & v & ->)];
    unfold mbind, M_bind, mret, M_ret, lift; by rewrite Hlike.
Qed.

End Updates.

Lemma get_list_like_fails_witness :
  serve Sample.engine Sample.config "plazas" Sample.plazas
    (Sample.GET [("nombre_like", "%ur"); ("limit", "5")]) Sample.stored
  = ({| status_code := 500; payload := InternalError TypeError |}, Sample.stored).
Proof.
  apply get_list_like_fails; [reflexivity | reflexivity | by left |].
  exists "nombre_like". split; compute_done.
Defined.

Lemma get_list_page_witness :
  serve Sample.engine Sample.config "plazas" Sample.plazas
    (Sample.GET [("limit", "1"); ("offset", "1"); ("ruta_lte", "RN9")]) Sample.stored
  = ({| status_code := 200; payload := Listing [] 1 1 |},
     {| rows := rows Sample.stored;
        log := [Select (Some (And [Le "ruta" "RN9"])) None 1 (Some 1)] |}).
Proof.
  destruct (get_list_page Sample.engine Sample.config "plazas" Sample.plazas
              (Sample.GET [("limit", "1"); ("offset", "1"); ("ruta_lte", "RN9")])
              Sample.stored eq_refl eq_refl 1 (Some (And [Le "ruta" "RN9"])))
    as (Hworld & Hanswer & _).
  - right. exists "1". split; reflexivity.
  - reflexivity.
  - reflexivity.
  - rewrite (surjective_pairing (serve _ _ _ _ _ _)), Hworld, Hanswer. reflexivity.
Defined.


(** ** Reserved parameters, ordering and the limit *)

Lemma all_pk_present_filter (tbl : Table) (keep : string * string → bool)
    (args : Py.dict string) :
  all_pk_present tbl args = false →
  all_pk_present tbl (List.filter keep args) = false.
Proof.
  rewrite !all_pk_present_false. intros (col & Hcol & Hmiss).
  exists col. split; [done|]. intros Hin. apply Hmiss.
  apply list_elem_of_fmap in Hin as (kv & -> & Hkv).
  apply list_elem_of_In, filter_In in Hkv as [Hkv _].
  apply list_elem_of_fmap. exists kv. split; [done|]. by apply list_elem_of_In.
Qed.

Lemma filter_loop_without_reserved (tbl : Table) kvs conds :
  filter_loop tbl conds
    (List.filter (λ kv, negb (bool_decide (kv.1 ∈ skip))) kvs)
  = filter_loop tbl conds kvs.
Proof.
  revert conds. induction kvs as [|[k v] kvs IH]; intros conds; simpl; [done|].
  destruct (decide (k ∈ skip)) as [Hk|Hk].
  - rewrite (bool_decide_eq_true_2 _ Hk). simpl.
    rewrite (filter_step_reserved tbl conds k v Hk). apply IH.
  - rewrite (bool_decide_eq_false_2 _ Hk). simpl.
    destruct (filter_step tbl conds (k, v)); [apply IH | done].
Qed.

(** X21.  On the general path [limit], [offset], [order_by] and
    [order_dir] are never filters, also when the table has columns of
    these names: the result is the one without these parameters. *)
Theorem build_filters_ignores_reserved (tbl : Table) (args : Py.dict string) :
  all_pk_present tbl args = false →
  build_filters tbl args = build_filters tbl (without_reserved args).
Proof.
  intros Hmiss. unfold build_filters, without_reserved.
  rewrite Hmiss, (all_pk_present_filter _ _ _ Hmiss).
  pose proof (items_filter (λ k, negb (bool_decide (k ∈ skip))) args) as Hitems.
  cbv beta in Hitems. rewrite Hitems.
  by rewrite filter_loop_without_reserved.
Qed.

Lemma build_filters_ignores_reserved_witness :
  build_filters Sample.plazas [("limit", "5"); ("nombre", "Sur")]
  = build_filters Sample.plazas (without_reserved [("limit", "5"); ("nombre", "Sur")]).
Proof. apply build_filters_ignores_reserved. reflexivity. Defined.

(** X22.  There is no ordering exactly when [order_by] is absent, empty
    or not a column of the table; an ordering is always on the column
    [order_by] names, which is a column of the table. *)
Theorem parse_order_known_column (tbl : Table) (args : Py.dict string) :
  (parse_order tbl args = None ↔
     Py.get args "order_by" = None ∨ Py.get args "order_by" = Some "" ∨
     ∃ ob, Py.get args "order_by" = Some ob ∧ ob ∉ column_names tbl) ∧
  (∀ o, parse_order tbl args = Some o →
     Py.get args "order_by" = Some (order_column o) ∧
     order_column o ≠ "" ∧ order_column o ∈ column_names tbl).
Proof.
  split; [|apply parse_order_known].
  unfold parse_order. destruct (Py.get args "order_by") as [ob|]; [|by split; auto].
  destruct (String.eqb_spec ob "") as [->|Hne]; simpl.
  { split; [auto | done]. }
  unfold has_column. destruct (decide (ob ∈ column_names tbl)) as [Hin|Hout].
  - rewrite (bool_decide_eq_true_2 _ Hin). simpl. split.
    + by destruct (String.eqb _ "desc").
    + intros [?|[[= ?]|(ob' & [= <-] & ?)]]; done.
  - rewrite (bool_decide_eq_false_2 _ Hout). simpl. split; [|done].
    intros _. right. right. by exists ob.
Qed.

(** X23.  [cast_limit] of [db.py], on an integer or absent limit: the
    result is at least 1 and at most the maximum when that is at least
    1, clamping twice is clamping once, a value within the range is
    kept, and the function of [app.py] agrees with it on an absent
    limit and on every string that [int()] accepts. *)
Theorem db_cast_limit_clamps (limit : option Z) (default max_limit : Z) :
  1 ≤ Db.cast_limit limit default max_limit ∧
  (1 ≤ max_limit → Db.cast_limit limit default max_limit ≤ max_limit) ∧
  Db.cast_limit (Some (Db.cast_limit limit default max_limit)) default max_limit
  = Db.cast_limit limit default max_limit ∧
  (∀ n, limit = Some n → 1 ≤ n ≤ max_limit → Db.cast_limit limit default max_limit = n) ∧
  (∀ s, is_Some (Py.int s) →
     cast_limit (Some s) default max_limit = Db.cast_limit (Py.int s) default max_limit) ∧
  cast_limit None default max_limit = Db.cast_limit None default max_limit.
Proof.
  unfold Db.cast_limit, cast_limit. repeat split; try lia.
  - intros n -> ?. lia.
  - intros s [v ->]. done.
Qed.

(** ** Start-up *)

Lemma append_nil_r (s : string) : s +:+ "" = s.
Proof.
  induction s as [|a s IH]; [done|].
  change (String a (s +:+ "") = String a s). by rewrite IH.
Qed.

Lemma append_inv_head (s t u : string) : s +:+ t = s +:+ u → t = u.
Proof.
  induction s as [|a s IH]; [done|].
  change (String a (s +:+ t) = String a (s +:+ u) → t = u). intros [= ?]. auto.
Qed.

Lemma append_inv_tail (s t u : string) : s +:+ u = t +:+ u → s = t.
Proof.
  revert t. induction s as [|a s IH]; intros t Heq.
  - destruct t as [|b t]; [done|]. apply (f_equal String.length) in Heq.
    rewrite !length_append in Heq. simpl in Heq. lia.
  - destruct t as [|b t].
    + apply (f_equal String.length) in Heq.
      rewrite !length_append in Heq. simpl in Heq. lia.
    + change (String a (s +:+ u) = String b (t +:+ u)) in Heq.
      injection Heq as -> Heq. f_equal. by apply IH.
Qed.

(** [rstrip] removes a run of the given characters at the end, the
    whole of it. *)
Lemma str_rstrip_shape (chars s : string) :
  ∃ t, s = str_rstrip chars s +:+ t ∧ all_in chars t = true ∧
       (str_rstrip chars s = "" ∨
        ∃ r a, str_rstrip chars s = r +:+ String a "" ∧
               existsb (Ascii.eqb a) (list_ascii_of_string chars) = false).
Proof.
  induction s as [|a s (t & Hs & Ht & Hlast)]; simpl.
  - exists "". auto.
  - destruct (str_rstrip chars s) as [|b r] eqn:Hr.
    + destruct (existsb (Ascii.eqb a) (list_ascii_of_string chars)) eqn:Ha.
      * exists (String a t). simpl in Hs. subst s. simpl. rewrite Ha. auto.
      * exists t. simpl in Hs. subst s. repeat split; [done|].
        right. exists "", a. done.
    + exists t. split; [|split; [done|]].
      * change (String a s = String a (String b r +:+ t)). by rewrite <- Hs.
      * right. destruct Hlast as [|(r' & a' & Hr' & Ha')]; [done|].
        exists (String a r'), a'. split; [|done].
        change (String a (String b r) = String a (r' +:+ String a' "")). by rewrite Hr'.
Qed.

Lemma str_rstrip_fixed (chars s : string) :
  (s = "" ∨ ∃ r a, s = r +:+ String a "" ∧
                    existsb (Ascii.eqb a) (list_ascii_of_string chars) = false) →
  str_rstrip chars s = s.
Proof.
  intros [->|(r & a & -> & Ha)]; [done|].
  induction r as [|b r IH].
  - simpl. by rewrite Ha.
  - change (String b r +:+ String a "") with (String b (r +:+ String a "")).
    simpl. rewrite IH. destruct r; done.
Qed.

Lemma table_path_inj (api : Api) (n1 n2 : string) :
  table_path api n1 = table_path api n2 → n1 = n2.
Proof. unfold table_path. by intros ?%append_inv_head%append_inv_head. Qed.

(** X24.  [BASE] is the configured prefix ("/api" by default) without
    the slashes it ends with: it does not end in a slash, stripping it
    again changes nothing, and two tables have the same path only when
    they have the same name. *)
Theorem base_prefix_normalised (api : Api) :
  Py.endswith (BASE api) "/" = false ∧
  (∃ t, default "/api" (base_prefix api) = BASE api +:+ t ∧ all_in "/" t = true) ∧
  str_rstrip "/" (BASE api) = BASE api ∧
  (∀ n1 n2, table_path api n1 = table_path api n2 → n1 = n2).
Proof.
  unfold BASE.
  destruct (str_rstrip_shape "/" (default "/api" (base_prefix api)))
    as (t & Ht & Hall & Hlast).
  split; [|split; [by exists t|split; [by apply str_rstrip_fixed|apply table_path_inj]]].
  destruct Hlast as [->|(r & a & -> & Ha)]; [done|].
  apply endswith_append_other; [done|]. simpl in Ha.
  apply orb_false_iff in Ha as [Ha _]. apply Ascii.eqb_neq in Ha. congruence.
Qed.

Lemma register_table_endpoint_Return parses api meta rules name rules' :
  register_table_endpoint parses api meta rules name = Return rules' ↔
  ∃ tbl, Py.get meta name = Some tbl ∧
         leading_slash (table_path api name) = true ∧
         parses (table_path api name) = true ∧
         ((name +:+ "_endpoint") ∉ endpoint <$> rules) ∧
         rules' = rules ++ [table_rule api name tbl].
Proof.
  unfold register_table_endpoint, get_table_or_404, add_url_rule. simpl.
  destruct (Py.get meta name) as [tbl|]; [|split; [done | by intros (? & ? & _)]].
  destruct (leading_slash (table_path api name)); simpl;
    [|split; [done | by intros (? & _ & ? & _)]].
  destruct (parses (table_path api name)); simpl;
    [|split; [done | by intros (? & _ & _ & ? & _)]].
  destruct (decide ((name +:+ "_endpoint") ∈ endpoint <$> rules)) as [Hin|Hout].
  - rewrite (bool_decide_eq_true_2 _ Hin). split; [done|]. by intros (? & _ & _ & _ & ? & _).
  - rewrite (bool_decide_eq_false_2 _ Hout). split.
    + intros [= <-]. by exists tbl.
    + by intros (? & [= <-] & _ & _ & _ & ->).
Qed.


Lemma register_all_Return parses api meta names : ∀ rules done rules',
  endpoint <$> rules = (λ n, n +:+ "_endpoint") <$> done →
  register_all parses api meta rules names = Return rules' ↔
  NoDup names ∧ (∀ n, n ∈ names → n ∉ done) ∧
  Forall (λ n, leading_slash (table_path api n) = true ∧
               parses (table_path api n) = true) names ∧
  ∃ new, rules' = rules ++ new ∧
         Forall2 (λ n r, ∃ tbl, Py.get meta n = Some tbl ∧ r = table_rule api n tbl)
           names new.
Proof.
  induction names as [|t names IH]; intros rules done rules' Hdone; simpl.
  - split.
    + intros [= <-]. split; [constructor|]. split; [by intros ? ?%elem_of_nil|].
      split; [constructor|]. exists []. by rewrite app_nil_r.
    + intros (_ & _ & _ & new & -> & Hnew). apply Forall2_nil_inv_l in Hnew as ->.
      by rewrite app_nil_r.
  - assert (Hep : (t +:+ "_endpoint") ∈ endpoint <$> rules ↔ t ∈ done).
    { rewrite Hdone, list_elem_of_fmap. split.
      - intros (n & Heq%append_inv_tail & Hn). by subst.
      - intros Hn. by exists t. }
    destruct (register_table_endpoint parses api meta rules t) as [rules1|e] eqn:Hreg.
    + apply register_table_endpoint_Return in Hreg as (tbl & Htbl & Hslash & Hparses & Hout & ->).
      rewrite (IH _ (done ++ [t]) rules').
      2:{ rewrite !fmap_app, Hdone. done. }
      rewrite Hep in Hout. split.
      * intros (Hnd & Hfresh & Hrules & new & -> & Hnew). split; [|split; [|split]].
        -- constructor; [|done]. intros Hin. apply (Hfresh t Hin).
           apply elem_of_app. right. left.
        -- intros n [->|Hin]%elem_of_cons; [done|]. intros Hd. apply (Hfresh n Hin).
           apply elem_of_app. by left.
        -- by constructor.
        -- exists (table_rule api t tbl :: new). split; [by rewrite <- app_assoc|].
           constructor; [by exists tbl | done].
      * intros (Hnd & Hfresh & Hrules & new & -> & Hnew).
        apply NoDup_cons in Hnd as [Hnotin Hnd].
        apply Forall_cons in Hrules as [_ Hrules].
        apply Forall2_cons_inv_l in Hnew as (r & new' & (tbl' & Htbl' & ->) & Hnew' & ->).
        assert (tbl' = tbl) as -> by congruence.
        split; [done|]. split; [|split; [done|]].
        -- intros n Hin [Hd|Hs%list_elem_of_singleton]%elem_of_app; [|by subst].
           apply (Hfresh n); [by right | done].
        -- exists new'. split; [by rewrite <- app_assoc | done].
    + split; [done|]. intros (Hnd & Hfresh & Hrules & new & -> & Hnew).
      apply Forall_cons in Hrules as [[Hslash Hparses] _].
      apply Forall2_cons_inv_l in Hnew as (r & new' & (tbl & Htbl & ->) & Hnew' & ->).
      assert (Hok : register_table_endpoint parses api meta rules t
                    = Return (rules ++ [table_rule api t tbl])).
      { apply register_table_endpoint_Return. exists tbl. split; [done|].
        split; [done|]. split; [done|]. split; [|done].
        rewrite Hep. apply Hfresh. left. }
      congruence.
Qed.





(** A prefix written without its leading slash stops the import at the
    first table, and so does a table exposed twice at its second
    occurrence. *)
Example register_all_refused :
  register_all Deployment.plain
    {| base_prefix := Some "peajes"; expose_tables := ["plazas"];
       docs_enabled := false; docs_title := None; docs_version := None |}
    Deployment.meta [] ["plazas"]
  = Raise (ValueError "peajes/plazas") ∧
  register_all Deployment.plain Deployment.api Deployment.meta [] ["plazas"; "plazas"]
  = Raise (AssertionError "plazas_endpoint").
Proof. split; reflexivity. Qed.

(** ** The API description *)

Section DictKeys.
Context {V : Type}.
Implicit Types (d : Py.dict V) (k : string).

Lemma items_from_keys seen d k :
  k ∈ (Py.items_from seen d).*1 → (k ∉ seen) ∧ k ∈ d.*1.
Proof.
  intros ([k' v] & -> & Hin)%list_elem_of_fmap.
  apply elem_items_from in Hin as [Hout Hget]. split; [done|]. by eapply get_Some_key.
Qed.

Lemma items_from_NoDup seen d : NoDup (Py.items_from seen d).*1.
Proof.
  revert seen. induction d as [|[k v] d IH]; intros seen; simpl; [constructor|].
  destruct (decide (k ∈ seen)); [apply IH|].
  rewrite fmap_cons. constructor; [|apply IH].
  intros [Hout _]%items_from_keys. apply Hout. left.
Qed.

Lemma items_NoDup d : NoDup (Py.items d).*1.
Proof. apply items_from_NoDup. Qed.

Lemma set_fresh d k (v : V) : k ∉ d.*1 → Py.set d k v = d ++ [(k, v)].
Proof.
  induction d as [|[k' v'] d IH]; simpl; [done|].
  rewrite not_elem_of_cons. intros [Hne Hout].
  destruct (decide (k = k')); [done|]. by rewrite IH.
Qed.

Lemma get_NoDup d k (v : V) : NoDup d.*1 → (k, v) ∈ d → Py.get d k = Some v.
Proof.
  induction d as [|[k' v'] d IH]; simpl; [by intros _ ?%elem_of_nil|].
  rewrite NoDup_cons. intros [Hout Hnd] [[= -> ->]|Hin]%elem_of_cons.
  - by rewrite decide_True.
  - rewrite decide_False; [auto|]. intros ->. apply Hout.
    apply list_elem_of_fmap. by exists (k', v).
Qed.

Lemma keys_filter (keep : string * V → bool) d k :
  k ∈ (List.filter keep d).*1 → k ∈ d.*1.
Proof.
  intros (kv & -> & Hin)%list_elem_of_fmap.
  apply list_elem_of_In, filter_In in Hin as [Hin _].
  apply list_elem_of_fmap. exists kv. split; [done|]. by apply list_elem_of_In.
Qed.

Lemma filter_keys_NoDup (keep : string * V → bool) d :
  NoDup d.*1 → NoDup (List.filter keep d).*1.
Proof.
  induction d as [|[k v] d IH]; simpl; [done|].
  rewrite NoDup_cons. intros [Hout Hnd].
  destruct (keep (k, v)); [|auto]. rewrite fmap_cons. constructor; [|auto].
  intros Hin%keys_filter. done.
Qed.

End DictKeys.

Lemma described_fold (api : Api) (kvs : list (string * Table)) :
  ∀ paths schemas,
  NoDup kvs.*1 →
  (∀ k, k ∈ kvs.*1 → k ∉ schemas.*1) →
  paths.*1 = table_path api <$> schemas.*1 →
  foldl (describe_table api) (paths, schemas) kvs
  = (paths ++ (path_entry api
                 <$> List.filter (λ kv, bool_decide (kv.1 ∈ expose_tables api)) kvs),
     schemas ++ (schema_entry
                 <$> List.filter (λ kv, bool_decide (kv.1 ∈ expose_tables api)) kvs)).
Proof.
  induction kvs as [|[n t] kvs IH]; intros paths schemas Hnd Hfresh Hkeys; simpl.
  - by rewrite !app_nil_r.
  - apply NoDup_cons in Hnd as [Hn Hnd].
    destruct (bool_decide (n ∈ expose_tables api)) eqn:Hexp.
    + assert (Hs : n ∉ schemas.*1) by (apply Hfresh; left).
      assert (Hp : table_path api n ∉ paths.*1).
      { rewrite Hkeys. intros (n' & Heq%table_path_inj & Hn')%list_elem_of_fmap.
        by subst. }
      rewrite (set_fresh _ _ _ Hs), (set_fresh _ _ _ Hp), IH; [| done | |].
      * rewrite !fmap_cons, <- !app_assoc. done.
      * intros k Hk. rewrite fmap_app, elem_of_app. intros [Hin|Hin].
        -- apply (Hfresh k); [by right | done].
        -- apply list_elem_of_singleton in Hin. simpl in Hin. by subst.
      * rewrite !fmap_app, Hkeys. done.
    + apply IH; [done| |done]. intros k Hk. apply Hfresh. by right.
Qed.

Lemma described_tables_eq (api : Api) (meta : MetaData) :
  described_tables api meta
  = (path_entry api <$> exposed api meta, schema_entry <$> exposed api meta).
Proof.
  unfold described_tables, exposed.
  rewrite described_fold; [done| apply items_NoDup | | done].
  by intros k _ ?%elem_of_nil.
Qed.

Lemma exposed_spec (api : Api) (meta : MetaData) (name : string) (tbl : Table) :
  (name, tbl) ∈ exposed api meta ↔
  name ∈ expose_tables api ∧ Py.get meta name = Some tbl.
Proof.
  unfold exposed.
  rewrite (list_elem_of_In (List.filter _ _)), filter_In.
  rewrite <- (list_elem_of_In (Py.items meta)), elem_items. simpl.
  rewrite bool_decide_eq_true. tauto.
Qed.

Lemma documented_paths_eq (api : Api) (meta : MetaData) :
  documented_paths (build_openapi_spec api meta)
  = table_path api <$> (exposed api meta).*1.
Proof.
  unfold documented_paths, build_openapi_spec. rewrite described_tables_eq. simpl.
  rewrite <- !list_fmap_compose. done.
Qed.

(** X26.  The paths of the API description are, without repetition,
    the paths of the tables that are both reflected and exposed, and
    when registration succeeds they are the registered paths. *)
Theorem description_lists_endpoints (api : Api) (meta : MetaData) :
  let spec := build_openapi_spec api meta in
  (∀ p, p ∈ documented_paths spec ↔
     ∃ name, p = table_path api name ∧ name ∈ expose_tables api ∧ name ∈ meta.*1) ∧
  NoDup (documented_paths spec) ∧
  (∀ parses rules, register_all parses api meta [] (expose_tables api) = Return rules →
     ∀ p, p ∈ rule <$> rules ↔ p ∈ documented_paths spec).
Proof.
  cbv zeta.
  assert (Hdoc : ∀ p, p ∈ documented_paths (build_openapi_spec api meta) ↔
     ∃ name, p = table_path api name ∧ name ∈ expose_tables api ∧ name ∈ meta.*1).
  { intros p. rewrite documented_paths_eq, list_elem_of_fmap. split.
    - intros (name & -> & ([n t] & -> & [Hexp Hget]%exposed_spec)%list_elem_of_fmap).
      exists n. split; [done|]. split; [done|]. by eapply get_Some_key.
    - intros (name & -> & Hexp & [tbl Hget]%get_is_Some).
      exists name. split; [done|]. apply list_elem_of_fmap. exists (name, tbl).
      split; [done|]. by apply exposed_spec. }
  split; [exact Hdoc|]. split.
  - rewrite documented_paths_eq. apply NoDup_fmap_2.
    + intros n1 n2. apply table_path_inj.
    + apply filter_keys_NoDup, items_NoDup.
  - intros parses rules Hreg p. rewrite Hdoc.
    apply register_all_Return with (done := []) in Hreg as (_ & _ & _ & new & -> & Hnew);
      [|done].
    simpl. rewrite list_elem_of_fmap. split.
    + intros (r & -> & Hr).
      apply list_elem_of_lookup in Hr as [i Hi].
      destruct (Forall2_lookup_r _ _ _ _ _ Hnew Hi) as (n & Hn & tbl & Htbl & ->).
      exists n. split; [done|]. split.
      * apply list_elem_of_lookup. by exists i.
      * by eapply get_Some_key.
    + intros (name & -> & Hexp & _).
      apply list_elem_of_lookup in Hexp as [i Hi].
      destruct (Forall2_lookup_l _ _ _ _ _ Hnew Hi) as (r & Hr & tbl & Htbl & ->).
      exists (table_rule api name tbl). split; [done|].
      apply list_elem_of_lookup. by exists i.
Qed.

Lemma path_entry_keys (api : Api) (l : list (string * Table)) :
  (path_entry api <$> l).*1 = table_path api <$> l.*1.
Proof. rewrite <- !list_fmap_compose. done. Qed.

Lemma path_item_documented (api : Api) (meta : MetaData) (name : string) (tbl : Table) :
  name ∈ expose_tables api → Py.get meta name = Some tbl →
  descend ["paths"; table_path api name] (build_openapi_spec api meta)
  = Some (path_item name tbl).
Proof.
  intros Hexp Hget. unfold build_openapi_spec. rewrite described_tables_eq.
  unfold descend. simpl.
  apply get_NoDup.
  - rewrite path_entry_keys.
    apply NoDup_fmap_2; [intros ? ?; apply table_path_inj|].
    apply filter_keys_NoDup, items_NoDup.
  - apply list_elem_of_fmap. exists (name, tbl). split; [done|]. by apply exposed_spec.
Qed.

Lemma key_param_names (tbl : Table) : omap param_name (key_params tbl) = pk_names tbl.
Proof.
  unfold key_params, pk_names. induction (pk_columns tbl) as [|col cols IH]; [done|].
  rewrite !fmap_cons. simpl. f_equal. exact IH.
Qed.

Lemma filter_param_names_from (cols : list Column) (ps : list json) :
  omap param_name (foldl (λ ps col, ps ++ column_params col) ps cols)
  = omap param_name ps ++ List.concat ((λ col, column_param_names (name col)) <$> cols).
Proof.
  revert ps. induction cols as [|col cols IH]; intros ps; simpl.
  - by rewrite app_nil_r.
  - rewrite IH, omap_app, <- app_assoc. done.
Qed.

Lemma filter_param_names (tbl : Table) :
  omap param_name (filter_params tbl)
  = skip ++ List.concat (column_param_names <$> column_names tbl).
Proof.
  unfold filter_params, column_names. rewrite filter_param_names_from.
  by rewrite <- list_fmap_compose.
Qed.

Lemma descend_step (keys : list string) (key : string) (j x : json) :
  descend keys j = Some x → descend (keys ++ [key]) j = member key x.
Proof. unfold descend. rewrite foldl_app. by intros ->. Qed.

(** X27.  For an exposed, reflected table the description gives, for
    GET, the four reserved parameters and, per column, its name and the
    three suffixed names; for POST none; for PUT, PATCH and DELETE the
    names of the key columns, which are the parameters
    [require_pk_params] needs: it succeeds exactly on the parameter
    sets that hold them all. *)
Theorem description_parameters (api : Api) (meta : MetaData) (tname : string) (tbl : Table) :
  tname ∈ expose_tables api →
  Py.get meta tname = Some tbl →
  let spec := build_openapi_spec api meta in
  let path := table_path api tname in
  documented_params spec path "get"
  = skip ++ List.concat (column_param_names <$> column_names tbl) ∧
  documented_params spec path "post" = [] ∧
  (∀ m, m ∈ ["put"; "patch"; "delete"] →
     documented_params spec path m = pk_names tbl ∧
     ∀ args w,
       Forall (λ p, p ∈ args.*1) (documented_params spec path m) ↔
       ∃ pkd, require_pk_params tbl args w = (Return pkd, w)).
Proof.
  intros Hexp Hget spec path.
  pose proof (path_item_documented api meta tname tbl Hexp Hget) as Hitem.
  fold spec path in Hitem.
  assert (Hparams : ∀ m, documented_params spec path m
            = match member m (path_item tname tbl) ≫= member "parameters" with
              | Some (JArr ps) => omap param_name ps
              | _ => []
              end).
  { intros m. unfold documented_params.
    change ["paths"; path; m; "parameters"] with ((["paths"; path] ++ [m]) ++ ["parameters"]).
    unfold descend at 1. rewrite foldl_app. fold (descend (["paths"; path] ++ [m]) spec).
    rewrite (descend_step _ m _ _ Hitem). simpl.
    by destruct (member m (path_item tname tbl)). }
  split; [|split].
  - rewrite Hparams. simpl. apply filter_param_names.
  - by rewrite Hparams.
  - intros m Hm.
    assert (Hkeys : documented_params spec path m = pk_names tbl).
    { rewrite Hparams. rewrite !elem_of_cons, elem_of_nil in Hm.
      destruct Hm as [->|[->|[->|[]]]]; simpl; apply key_param_names. }
    split; [done|]. intros args w. rewrite Hkeys. unfold pk_names, require_pk_params.
    rewrite Forall_fmap. split.
    + intros Hall. destruct (require_pk_loop_present _ _ [] w Hall) as (pkd & Hrun & _).
      by exists pkd.
    + intros (pkd & Hrun).
      destruct (decide (Forall (λ col, name col ∈ args.*1) (pk_columns tbl)))
        as [Hall|Hnot]; [done|].
      apply Exists_Forall_neg in Hnot; [|intros col; destruct (decide (name col ∈ args.*1)); tauto].
      exfalso. revert Hrun. generalize (@nil (string * string)).
      induction Hnot as [col cols Hcol|col cols _ IH]; intros data; simpl.
      * destruct (Py.get args (name col)) eqn:Hv; [|done].
        by apply get_Some_key in Hv.
      * destruct (Py.get args (name col)); [apply IH | done].
Qed.

Lemma description_parameters_witness :
  documented_params (build_openapi_spec Deployment.api Deployment.meta)
    (table_path Deployment.api "tarifas") "delete"
  = ["plaza_id"; "categoria"] ∧
  table_path Deployment.api "tarifas" = "/peajes/tarifas".
Proof.
  destruct (description_parameters Deployment.api Deployment.meta "tarifas" Sample.tarifas)
    as (_ & _ & Hkeys); [compute_done | reflexivity |].
  destruct (Hkeys "delete") as [Hdelete _]; [compute_done|].
  split; [exact Hdelete | reflexivity].
Defined.


